(** * The hash-key expectation and the file data context

    A shallow embedding of

      - [ExpectQueriedColumnToBeHK.validate_configuration] and
        [ExpectQueriedColumnToBeHK._validate]
        (contrib/experimental/great_expectations_experimental/
         expect_queried_column_to_be_hk.py), and
      - [FileDataContext._check_global_usage_statistics_env_var_and_file_opt_out]
        and [FileDataContext._get_global_config_value] with their callers
        (great_expectations/data_context/data_context/file_data_context.py).

    Python objects are an inductive type of values, Python floats are the
    kernel's binary64 floats, exceptions are an error monad, dictionaries
    are finite maps, and the two functions of the data context run in a
    small state monad that records the files read and the warnings logged. *)

From Stdlib Require Import ZArith Bool Ascii String List.
From Stdlib Require Import PrimFloat SpecFloat FloatOps.
From stdpp Require Import gmap strings list fin_maps.

Set Warnings "-register-all,-inexact-float".
Local Open Scope Z_scope.

(** ** Exceptions *)

Inductive exn : Type :=
  | KeyError
  | TypeError
  | IndexError
  | OverflowError
  | ValueError
  | ConfigParserError
  | NotImplementedError
  | AssertionError (msg : string)
  | InvalidExpectationConfigurationError (msg : string).

Inductive result (A : Type) : Type :=
  | Ok (a : A)
  | Err (e : exn).
Arguments Ok {A} a.
Arguments Err {A} e.

Definition bind {A B : Type} (r : result A) (k : A -> result B) : result B :=
  match r with
  | Ok a => k a
  | Err e => Err e
  end.

Notation "'do' x <- r ; k" := (bind r (fun x => k))
  (at level 10, x name, r at level 100, k at level 200).

Definition returns {A : Type} (r : result A) : Prop := exists a, r = Ok a.

(** ** Numbers

    A Python [int] is unbounded, a Python [float] is a binary64.  Ordering
    two floats is the IEEE comparison; ordering an [int] and a [float]
    compares the two exact values, as CPython does. *)

Inductive pynum : Type :=
  | NInt (z : Z)
  | NFloat (f : float).

Definition signed (s : bool) (m : positive) : Z :=
  if s then Z.neg m else Z.pos m.

(** The exact order of a float and an integer; [None] for a NaN. *)
Definition SF_compare_Z (f : spec_float) (z : Z) : option comparison :=
  match f with
  | S754_nan => None
  | S754_infinity s => Some (if s then Lt else Gt)
  | S754_zero _ => Some (0 ?= z)
  | S754_finite s m e =>
      Some (if 0 <=? e then (signed s m * 2 ^ e ?= z)
            else (signed s m ?= z * 2 ^ (- e)))
  end.

Definition float_compare_int (f : float) (z : Z) : option comparison :=
  SF_compare_Z (Prim2SF f) z.

Definition py_lt (a b : pynum) : bool :=
  match a, b with
  | NInt x, NInt y => x <? y
  | NFloat x, NFloat y => PrimFloat.ltb x y
  | NInt x, NFloat y =>
      match float_compare_int y x with Some Gt => true | _ => false end
  | NFloat x, NInt y =>
      match float_compare_int x y with Some Lt => true | _ => false end
  end.

Definition py_le (a b : pynum) : bool :=
  match a, b with
  | NInt x, NInt y => x <=? y
  | NFloat x, NFloat y => PrimFloat.leb x y
  | NInt x, NFloat y =>
      match float_compare_int y x with
      | Some Gt | Some Eq => true
      | _ => false
      end
  | NFloat x, NInt y =>
      match float_compare_int x y with
      | Some Lt | Some Eq => true
      | _ => false
      end
  end.

(** [a >= b] *)
Definition py_ge (a b : pynum) : bool := py_le b a.

(** [float(z)]: round to nearest even, [OverflowError] past the largest
    finite float. *)
Definition float_of_int (z : Z) : result float :=
  match binary_normalize prec emax z 0 false with
  | S754_infinity _ => Err OverflowError
  | sf => Ok (SF2Prim sf)
  end.

(** [a + b] *)
Definition py_add (a b : pynum) : result pynum :=
  match a, b with
  | NInt x, NInt y => Ok (NInt (x + y))
  | NFloat x, NFloat y => Ok (NFloat (PrimFloat.add x y))
  | NInt x, NFloat y => do fx <- float_of_int x; Ok (NFloat (PrimFloat.add fx y))
  | NFloat x, NInt y => do fy <- float_of_int y; Ok (NFloat (PrimFloat.add x fy))
  end.

(** The integer a float is equal to, if it is one ([32.0 == 32]). *)
Definition float_to_int (f : float) : option Z :=
  match Prim2SF f with
  | S754_zero _ => Some 0
  | S754_finite s m e =>
      if 0 <=? e then Some (signed s m * 2 ^ e)
      else if signed s m mod 2 ^ (- e) =? 0 then Some (signed s m / 2 ^ (- e))
      else None
  | _ => None
  end.

(** ** Values

    The objects a configuration's [kwargs] can hold.  [PyTypeInt] is the
    type object [int] itself, the one object [value is not int] rejects. *)

Inductive pyval : Type :=
  | PyNone
  | PyBool (b : bool)
  | PyInt (z : Z)
  | PyFloat (f : float)
  | PyStr (s : string)
  | PyList (l : list pyval)
  | PyTypeInt.

(** [isinstance(v, (int, float))]: [bool] is a subclass of [int]. *)
Definition as_num (v : pyval) : option pynum :=
  match v with
  | PyBool b => Some (NInt (Z.b2z b))
  | PyInt z => Some (NInt z)
  | PyFloat f => Some (NFloat f)
  | _ => None
  end.

Definition is_number (v : pyval) : bool :=
  match as_num v with Some _ => true | None => false end.

(** [isinstance(v, list)] *)
Definition is_list (v : pyval) : bool :=
  match v with PyList _ => true | _ => false end.

(** [v is not int] *)
Definition is_not_int (v : pyval) : bool :=
  match v with PyTypeInt => false | _ => true end.

(** [0 < x <= 1], for a value already known to be a number; a value that
    is not one raises [TypeError]. *)
Definition in_unit_interval (v : pyval) : result bool :=
  match as_num v with
  | Some n => Ok (py_lt (NInt 0) n && py_le n (NInt 1))
  | None => Err TypeError
  end.

(** [sum(l)]: the accumulator starts at the [int] 0. *)
Fixpoint py_sum_from (acc : pynum) (l : list pyval) : result pynum :=
  match l with
  | [] => Ok acc
  | v :: l' =>
      match as_num v with
      | Some n => do acc' <- py_add acc n; py_sum_from acc' l'
      | None => Err TypeError
      end
  end.

Definition py_sum (l : list pyval) : result pynum := py_sum_from (NInt 0) l.

(** [[0 < x <= 1 for x in l]], a list comprehension: every element is
    evaluated. *)
Fixpoint unit_interval_each (l : list pyval) : result (list bool) :=
  match l with
  | [] => Ok []
  | v :: l' =>
      do b <- in_unit_interval v;
      do bs <- unit_interval_each l';
      Ok (b :: bs)
  end.

(** ** Configurations *)

Record ExpectationConfiguration : Type := {
  kwargs : gmap string pyval
}.

(** [configuration["kwargs"].get(key)] *)
Definition kwargs_get (c : ExpectationConfiguration) (key : string) : pyval :=
  default PyNone (kwargs c !! key).

Definition kwargs_of (l : list (string * pyval)) : ExpectationConfiguration :=
  {| kwargs := list_to_map l |}.

(** ** [ExpectQueriedColumnToBeHK.validate_configuration] *)

Definition value_message : string := "'value' must be an integer".
Definition threshold_message : string :=
  "'threshold' must be 1, a float between 0 and 1, or a list of floats whose sum is between 0 and 1".
Definition pairing_message : string :=
  "'value' and 'threshold' must contain the same number of arguments".

(** [assert cond, msg] *)
Definition py_assert (cond : bool) (msg : string) : result unit :=
  if cond then Ok tt else Err (AssertionError msg).

(** [isinstance(threshold, (int, float)) and 0 < threshold <= 1] *)
Definition threshold_scalar_ok (threshold : pyval) : bool :=
  match as_num threshold with
  | Some n => py_lt (NInt 0) n && py_le n (NInt 1)
  | None => false
  end.

(** The second disjunct of the assertion on [threshold]; [and] evaluates
    its right operand only when the left one is true. *)
Definition threshold_list_ok (threshold : pyval) : result bool :=
  match threshold with
  | PyList l =>
      if forallb is_number l then
        do bs <- unit_interval_each l;
        if forallb (fun b : bool => b) bs then
          do s <- py_sum l;
          Ok (py_lt (NInt 0) s && py_le s (NInt 1))
        else Ok false
      else Ok false
  | _ => Ok false
  end.

Definition threshold_ok (threshold : pyval) : result bool :=
  if threshold_scalar_ok threshold then Ok true
  else threshold_list_ok threshold.

(** [isinstance(value, list) and len(value) == len(threshold)] *)
Definition same_shape (value threshold : pyval) : bool :=
  match value, threshold with
  | PyList vs, PyList ts => Nat.eqb (length vs) (length ts)
  | _, _ => false
  end.

(** The body of the [try] block. *)
Definition configuration_checks (value threshold : pyval) : result unit :=
  do _ <- py_assert (is_not_int value) value_message;
  do ok <- threshold_ok threshold;
  do _ <- py_assert ok threshold_message;
  if is_list threshold then
    py_assert (same_shape value threshold) pairing_message
  else Ok tt.

(** [except AssertionError as e: raise InvalidExpectationConfigurationError(str(e))] *)
Definition reraise_assertion {A : Type} (r : result A) : result A :=
  match r with
  | Err (AssertionError msg) => Err (InvalidExpectationConfigurationError msg)
  | _ => r
  end.

Section Expectation.

(** [QueryExpectation.validate_configuration], the method of the base
    class that [super()] reaches; the base class is not part of these
    sources. *)
Variable super_validate_configuration :
  option ExpectationConfiguration -> result unit.

(** Subscripting [None] raises [TypeError]; the later test
    [configuration is None] only rebinds a local that is not read again. *)
Definition validate_configuration
    (configuration : option ExpectationConfiguration) : result unit :=
  do _ <- super_validate_configuration configuration;
  match configuration with
  | None => Err TypeError
  | Some c =>
      let value := kwargs_get c "value" in
      let threshold := kwargs_get c "threshold" in
      reraise_assertion (configuration_checks value threshold)
  end.

End Expectation.

(** ** [ExpectQueriedColumnToBeHK._validate] *)

(** The rows of the [query.column] metric: a length and the fraction of
    the rows that have it. *)
Definition rows : Type := list (Z * pynum).

(** [dict(query_result)]: a later row replaces an earlier one with the
    same key. *)
Definition dict_of_rows (r : rows) : gmap Z pynum :=
  fold_left (fun d kv => <[kv.1 := kv.2]> d) r ∅.

(** The key of the integer-keyed dictionary that a value is equal to
    (and hashes like): [True == 1], [32.0 == 32]; [None] for a hashable
    value equal to no integer. *)
Definition int_key (v : pyval) : option Z :=
  match v with
  | PyBool b => Some (Z.b2z b)
  | PyInt z => Some z
  | PyFloat f => float_to_int f
  | _ => None
  end.

(** [d[k]]: a list is unhashable, a key that is not there is a
    [KeyError]. *)
Definition getitem (d : gmap Z pynum) (k : pyval) : result pynum :=
  match k with
  | PyList _ => Err TypeError
  | _ =>
      match int_key k with
      | Some z =>
          match d !! z with
          | Some x => Ok x
          | None => Err KeyError
          end
      | None => Err KeyError
      end
  end.

Definition string_index (s : string) (i : nat) : result pyval :=
  match String.get i s with
  | Some c => Ok (PyStr (String c EmptyString))
  | None => Err IndexError
  end.

(** [t[i]] for [i] in [range(...)] *)
Definition py_index (t : pyval) (i : nat) : result pyval :=
  match t with
  | PyList l =>
      match l !! i with
      | Some v => Ok v
      | None => Err IndexError
      end
  | PyStr s => string_index s i
  | _ => Err TypeError
  end.

(** [x >= t] for a number [x]: a [t] that is not a number is a
    [TypeError]. *)
Definition ge_value (x : pynum) (t : pyval) : result bool :=
  match as_num t with
  | Some n => Ok (py_ge x n)
  | None => Err TypeError
  end.

(** [all(query_result[value[i]] >= threshold[i] for i in range(len(value)))]
    from index [i] on: the generator stops at the first false comparison. *)
Fixpoint all_ge (d : gmap Z pynum) (vs : list pyval) (threshold : pyval)
    (i : nat) : result bool :=
  match vs with
  | [] => Ok true
  | v :: vs' =>
      do x <- getitem d v;
      do t <- py_index threshold i;
      do b <- ge_value x t;
      if b then all_ge d vs' threshold (S i) else Ok false
  end.

(** [[query_result[value[i]] for i in range(len(value))]] *)
Fixpoint observed_list (d : gmap Z pynum) (vs : list pyval)
    : result (list pynum) :=
  match vs with
  | [] => Ok []
  | v :: vs' =>
      do x <- getitem d v;
      do xs <- observed_list d vs';
      Ok (x :: xs)
  end.

Inductive observation : Type :=
  | ObsScalar (x : pynum)
  | ObsList (xs : list pynum).

(** [{"success": ..., "result": {"observed_value": ...}}] *)
Record ValidationResult : Type := {
  success : bool;
  observed_value : observation
}.

Definition _validate (configuration : ExpectationConfiguration)
    (metrics : gmap string rows) : result ValidationResult :=
  let value := kwargs_get configuration "value" in
  let threshold := kwargs_get configuration "threshold" in
  match metrics !! "query.column" with
  | None => Err TypeError
  | Some query_result =>
      let query_result := dict_of_rows query_result in
      match value with
      | PyList vs =>
          do ok <- all_ge query_result vs threshold 0;
          do xs <- observed_list query_result vs;
          Ok {| success := ok; observed_value := ObsList xs |}
      | _ =>
          do x <- getitem query_result value;
          do ok <- ge_value x threshold;
          do y <- getitem query_result value;
          Ok {| success := ok; observed_value := ObsScalar y |}
      end
  end.

(** ** [_validate] on a store of objects

    The same function with its arguments as references into a store, to
    say what a call does to the objects its caller holds.  The
    configuration and the metrics dictionary are objects; each metric is
    an object of its own, which the metrics dictionary refers to.  The
    lists inside [kwargs] are kept as values, since the function only
    reads them. *)

Definition loc : Type := positive.

Inductive pyobj : Type :=
  | ObjConfiguration (c : ExpectationConfiguration)
  | ObjMetrics (m : gmap string loc)
  | ObjRows (r : rows)
  | ObjDict (d : gmap Z pynum)
  | ObjResult (res : ValidationResult).

Abbreviation store := (gmap loc pyobj).

(** A new object, at a location that holds none. *)
Definition alloc (σ : store) (o : pyobj) : loc * store :=
  let l := fresh (dom σ) in (l, <[l := o]> σ).

(** The statements of [_validate] after [query_result = dict(query_result)]. *)
Definition verdict (value threshold : pyval) (query_result : gmap Z pynum)
    : result ValidationResult :=
  match value with
  | PyList vs =>
      do ok <- all_ge query_result vs threshold 0;
      do xs <- observed_list query_result vs;
      Ok {| success := ok; observed_value := ObsList xs |}
  | _ =>
      do x <- getitem query_result value;
      do ok <- ge_value x threshold;
      do y <- getitem query_result value;
      Ok {| success := ok; observed_value := ObsScalar y |}
  end.

(** [metrics.get("query.column")]: the object the entry refers to. *)
Definition metrics_get (σ : store) (m : gmap string loc) (name : string)
    : option pyobj :=
  match m !! name with
  | Some l => σ !! l
  | None => None
  end.

Definition _validate_in_store (configuration metrics : loc) (σ : store)
    : result loc * store :=
  match σ !! configuration, σ !! metrics with
  | Some (ObjConfiguration c), Some (ObjMetrics m) =>
      let value := kwargs_get c "value" in
      let threshold := kwargs_get c "threshold" in
      match metrics_get σ m "query.column" with
      | Some (ObjRows r) =>
          let (query_result, σ1) := alloc σ (ObjDict (dict_of_rows r)) in
          match σ1 !! query_result with
          | Some (ObjDict d) =>
              match verdict value threshold d with
              | Ok res =>
                  let (l, σ2) := alloc σ1 (ObjResult res) in (Ok l, σ2)
              | Err e => (Err e, σ1)
              end
          | _ => (Err TypeError, σ1)
          end
      | _ => (Err TypeError, σ)
      end
  | _, _ => (Err TypeError, σ)
  end.

(** The metrics dictionary as [_validate] takes it: each entry with the
    rows it refers to. *)
Definition metrics_view (σ : store) (m : gmap string loc) : gmap string rows :=
  omap (fun l => match σ !! l with Some (ObjRows r) => Some r | _ => None end) m.

(** ** The file data context

    What the two functions see of the process and of the disk: the
    environment variables, and for each path what a [ConfigParser] holds
    after [read(path)], section by section, the options of a section as
    [get] sees them (those of the section over the defaults, values
    interpolated).  A path with no file is read as an empty
    configuration.  A file the parser rejects, on which [read] or [get]
    raises, is outside this type. *)

Abbreviation ini := (gmap string (gmap string string)).

Record host : Type := {
  environ : gmap string string;
  files : gmap string ini
}.

(** What a call leaves behind: the files it read, in order, the records
    it logged, and [ConfigParser.BOOLEAN_STATES], the dictionary of the
    class that every parser shares. *)
Inductive log_record : Type :=
  | WarnUsageStatsMustBeOneOf (falsey : list string).

Record world : Type := {
  reads : list string;
  warnings : list log_record;
  BOOLEAN_STATES : gmap string bool
}.

Definition default_boolean_states : gmap string bool :=
  list_to_map
    [("1", true); ("yes", true); ("true", true); ("on", true);
     ("0", false); ("no", false); ("false", false); ("off", false)].

Definition initial_world : world :=
  {| reads := []; warnings := []; BOOLEAN_STATES := default_boolean_states |}.

(** Truth value of a string and of an [Optional[str]]. *)
Definition truthy (s : string) : bool := negb (String.eqb s "").

Definition truthy_opt (o : option string) : bool :=
  match o with
  | Some s => truthy s
  | None => false
  end.

(** [os.environ.get(name, False)] as a condition, and the value it has
    when the condition holds. *)
Definition environ_get (h : host) (name : string) : option string :=
  match environ h !! name with
  | Some v => if truthy v then Some v else None
  | None => None
  end.

(** [str.lower] on ASCII letters; other characters are kept. *)
Definition lower_ascii (c : ascii) : ascii :=
  let n := nat_of_ascii c in
  if (Nat.leb 65 n && Nat.leb n 90)%bool then ascii_of_nat (n + 32) else c.

Fixpoint lower (s : string) : string :=
  match s with
  | EmptyString => EmptyString
  | String c s' => String (lower_ascii c) (lower s')
  end.

(** [config.read(path)], for a file the parser accepts (see [host]); on
    any other file the source raises at this call. *)
Definition config_read (h : host) (path : string) : ini :=
  default ∅ (files h !! path).

(** [config.get(section, option, fallback=None)]: the option name goes
    through [optionxform], which lowers it.  The values of [ini] are
    already interpolated; a value the parser cannot interpolate, on which
    the source raises at this call, is outside [host]. *)
Definition config_get (c : ini) (section opt : string) : option string :=
  match c !! section with
  | Some d => d !! lower opt
  | None => None
  end.

(** [config.getboolean(section, option)]: a missing section or option
    raises a [configparser.Error], a value whose lower-case form is no
    key of [BOOLEAN_STATES] raises [ValueError]. *)
Definition config_getboolean (states : gmap string bool) (c : ini)
    (section opt : string) : result bool :=
  match config_get c section opt with
  | None => Err ConfigParserError
  | Some v =>
      match states !! lower v with
      | Some b => Ok b
      | None => Err ValueError
      end
  end.

Section FileDataContext.

(** [AbstractDataContext.FALSEY_STRINGS] and
    [AbstractDataContext.GLOBAL_CONFIG_PATHS]: constants of the base
    class, which is not part of these sources. *)
Variable FALSEY_STRINGS : list string.
Variable GLOBAL_CONFIG_PATHS : list string.

Variable h : host.

(** The statements of the loop body that set up the parser: the class
    dictionary is updated in place. *)
Definition extend_boolean_states (states : gmap string bool)
    : gmap string bool :=
  let states := fold_left (fun st f => <[f := false]> st) FALSEY_STRINGS states in
  let states := <["TRUE" := true]> states in
  <["True" := true]> states.

(** The [for] loop of
    [_check_global_usage_statistics_env_var_and_file_opt_out]. *)
Fixpoint opt_out_in_files (paths : list string) (w : world) : bool * world :=
  match paths with
  | [] => (false, w)
  | config_path :: paths' =>
      let states := extend_boolean_states (BOOLEAN_STATES w) in
      let w' := {| reads := reads w ++ [config_path];
                   warnings := warnings w;
                   BOOLEAN_STATES := states |} in
      match config_getboolean states (config_read h config_path)
              "anonymous_usage_statistics" "enabled" with
      | Ok false => (true, w')
      | _ => opt_out_in_files paths' w'
      end
  end.

Definition _check_global_usage_statistics_env_var_and_file_opt_out
    (w : world) : bool * world :=
  match environ_get h "GE_USAGE_STATS" with
  | Some ge_usage_stats =>
      if bool_decide (ge_usage_stats ∈ FALSEY_STRINGS) then (true, w)
      else
        opt_out_in_files GLOBAL_CONFIG_PATHS
          {| reads := reads w;
             warnings := warnings w ++ [WarnUsageStatsMustBeOneOf FALSEY_STRINGS];
             BOOLEAN_STATES := BOOLEAN_STATES w |}
  | None => opt_out_in_files GLOBAL_CONFIG_PATHS w
  end.

Definition _check_global_usage_statistics_opt_out (w : world) : bool * world :=
  _check_global_usage_statistics_env_var_and_file_opt_out w.

(** The [for] loop of [_get_global_config_value]. *)
Fixpoint value_in_files (paths : list string) (section opt : string)
    (w : world) : option string * world :=
  match paths with
  | [] => (None, w)
  | config_path :: paths' =>
      let w' := {| reads := reads w ++ [config_path];
                   warnings := warnings w;
                   BOOLEAN_STATES := BOOLEAN_STATES w |} in
      match config_get (config_read h config_path) section opt with
      | Some config_value =>
          if truthy config_value then (Some config_value, w')
          else value_in_files paths' section opt w'
      | None => value_in_files paths' section opt w'
      end
  end.

Definition both_or_neither_message : string :=
  "Must pass both 'conf_file_section' and 'conf_file_option' or neither.".

Definition _get_global_config_value (environment_variable : string)
    (conf_file_section conf_file_option : option string) (w : world)
    : result (option string) * world :=
  if negb ((truthy_opt conf_file_section && truthy_opt conf_file_option)
           || (negb (truthy_opt conf_file_section)
               && negb (truthy_opt conf_file_option)))
  then (Err (AssertionError both_or_neither_message), w)
  else
    match (if truthy environment_variable
           then environ_get h environment_variable else None) with
    | Some v => (Ok (Some v), w)
    | None =>
        match conf_file_section, conf_file_option with
        | Some section, Some opt =>
            if truthy section && truthy opt then
              let (v, w') := value_in_files GLOBAL_CONFIG_PATHS section opt w in
              (Ok v, w')
            else (Ok None, w)
        | _, _ => (Ok None, w)
        end
    end.

Definition _get_data_context_id_override_from_env_var_and_file (w : world)
    : result (option string) * world :=
  _get_global_config_value "GE_DATA_CONTEXT_ID"
    (Some "anonymous_usage_statistics") (Some "data_context_id") w.

Definition _get_data_context_id_override (w : world)
    : result (option string) * world :=
  _get_data_context_id_override_from_env_var_and_file w.

Definition _get_config_value_from_env_var_and_file (w : world)
    : result (option string) * world :=
  _get_global_config_value "GE_USAGE_STATISTICS_URL"
    (Some "anonymous_usage_statistics") (Some "usage_statistics_url") w.

Definition _get_usage_stats_url_override (w : world)
    : result (option string) * world :=
  _get_config_value_from_env_var_and_file w.

(** [_init_variables] *)
Definition _init_variables : result unit := Err NotImplementedError.

End FileDataContext.

(** ** Specification vocabulary *)

(** Every observed frequency reaches the threshold at the same index. *)
Definition pairwise_ge (xs ns : list pynum) : bool :=
  forallb (fun p => py_ge p.1 p.2) (zip xs ns).

(** [0 < n <= 1] *)
Definition num_in_unit (n : pynum) : bool :=
  py_lt (NInt 0) n && py_le n (NInt 1).

(** The rule on [threshold] in the words of the specification:
    (a) a single number strictly greater than 0 and at most 1, *)
Definition spec_threshold_scalar (threshold : pyval) : Prop :=
  exists n : pynum, as_num threshold = Some n /\ num_in_unit n = true.

(** (b) a sequence of numbers, each strictly greater than 0 and at most 1,
    whose sum is strictly greater than 0 and at most 1. *)
Definition spec_threshold_sequence (threshold : pyval) : Prop :=
  exists (l : list pyval) (ns : list pynum) (s : pynum),
    threshold = PyList l
    /\ Forall2 (fun t n => as_num t = Some n) l ns
    /\ Forall (fun n => num_in_unit n = true) ns
    /\ py_sum l = Ok s
    /\ num_in_unit s = true.

(** The pairing rule: a sequence of thresholds needs a sequence of values
    of the same length. *)
Definition spec_paired (value threshold : pyval) : Prop :=
  forall ts : list pyval,
    threshold = PyList ts ->
    exists vs : list pyval, value = PyList vs /\ length vs = length ts.

(** The call raises the configuration error, with some message. *)
Definition raises_configuration_error {A : Type} (r : result A) : Prop :=
  exists msg : string, r = Err (InvalidExpectationConfigurationError msg).

(** The call rejects the configuration: it raises the configuration error
    or, for a list of thresholds whose sum is too large for a float, the
    [OverflowError] of that sum. *)
Definition rejects {A : Type} (r : result A) : Prop :=
  raises_configuration_error r \/ r = Err OverflowError.

(** The world after reading the files [ps], in order. *)
Definition add_reads (w : world) (ps : list string) : world :=
  {| reads := reads w ++ ps;
     warnings := warnings w;
     BOOLEAN_STATES := BOOLEAN_STATES w |}.

(** The file at [path] has no non-empty value for the section and option. *)
Definition yields_nothing (h : host) (section opt path : string) : Prop :=
  forall u : string,
    config_get (config_read h path) section opt = Some u -> truthy u = false.

(** The file at [path] has a value for [anonymous_usage_statistics/enabled]
    that parses as [False]. *)
Definition file_opts_out (states : gmap string bool) (h : host)
    (path : string) : bool :=
  match config_getboolean states (config_read h path)
          "anonymous_usage_statistics" "enabled" with
  | Ok false => true
  | _ => false
  end.

(** [GE_USAGE_STATS] is set to one of the falsey strings. *)
Definition env_opts_out (falsey : list string) (h : host) : bool :=
  match environ_get h "GE_USAGE_STATS" with
  | Some v => bool_decide (v ∈ falsey)
  | None => false
  end.


(** ** Sample inputs *)

Definition metrics_of (r : rows) : gmap string rows := {[ "query.column" := r ]}.

(** [value=32, threshold=0.1] *)
Definition config_32_tenth : ExpectationConfiguration :=
  kwargs_of [("value", PyInt 32); ("threshold", PyFloat 0.1)].

(** [value=32, threshold=0.9], as in the tests of the expectation *)
Definition config_32_nine_tenths : ExpectationConfiguration :=
  kwargs_of [("value", PyInt 32); ("threshold", PyFloat 0.9)].

(** [value=[32], threshold=[0.5]] *)
Definition config_list_32_half : ExpectationConfiguration :=
  kwargs_of [("value", PyList [PyInt 32]); ("threshold", PyList [PyFloat 0.5])].

(** [value=[32, 16], threshold=[0.5, 0.25]] *)
Definition config_two_lengths : ExpectationConfiguration :=
  kwargs_of [("value", PyList [PyInt 32; PyInt 16]);
             ("threshold", PyList [PyFloat 0.5; PyFloat 0.25])].

(** [value=[32, 16], threshold=0.9] *)
Definition config_list_scalar : ExpectationConfiguration :=
  kwargs_of [("value", PyList [PyInt 32; PyInt 16]); ("threshold", PyFloat 0.9)].

(** [value=int, threshold=0.5] *)
Definition config_type_int : ExpectationConfiguration :=
  kwargs_of [("value", PyTypeInt); ("threshold", PyFloat 0.5)].

(** Two of five rows have length 32, three have length 22. *)
Definition rows_two_of_five : rows :=
  [(32, NFloat 0.4); (22, NFloat 0.6)].

(** A base class that accepts every configuration. *)
Definition super_accepts (_ : option ExpectationConfiguration) : result unit :=
  Ok tt.

(** [FALSEY_STRINGS] and [GLOBAL_CONFIG_PATHS] as the framework ships them. *)
Definition sample_falsey_strings : list string :=
  ["FALSE"; "false"; "False"; "f"; "F"; "0"].

Definition sample_config_paths : list string :=
  ["/home/ge/.great_expectations/great_expectations.conf";
   "/etc/great_expectations.conf"].

Definition section_with (opt value : string) : ini :=
  {[ "anonymous_usage_statistics" := {[ opt := value ]} ]}.

(** No variable is set; only the file under [/etc] exists. *)
Definition host_with_etc (c : ini) : host :=
  {| environ := ∅; files := {[ "/etc/great_expectations.conf" := c ]} |}.

Definition host_with_env (name value : string) (c : ini) : host :=
  {| environ := {[ name := value ]};
     files := {[ "/etc/great_expectations.conf" := c ]} |}.

(** A store with a configuration at 1, the metrics dictionary at 2 and
    the rows of [query.column] at 3. *)
Definition sample_store : store :=
  {[ 1%positive := ObjConfiguration config_32_nine_tenths;
     2%positive := ObjMetrics {[ "query.column" := 3%positive ]};
     3%positive := ObjRows rows_two_of_five ]}.

(** * Properties of the expectation *)

Lemma bind_ok {A B : Type} (r : result A) (k : A -> result B) (a : A) :
  r = Ok a -> bind r k = k a.
Proof. intros ->. reflexivity. Qed.

Lemma bind_err {A B : Type} (r : result A) (k : A -> result B) (e : exn) :
  r = Err e -> bind r k = Err e.
Proof. intros ->. reflexivity. Qed.

Lemma getitem_int (d : gmap Z pynum) (L : Z) :
  getitem d (PyInt L) =
  match d !! L with Some x => Ok x | None => Err KeyError end.
Proof. reflexivity. Qed.

Lemma getitem_int_Some (d : gmap Z pynum) (L : Z) (x : pynum) :
  d !! L = Some x -> getitem d (PyInt L) = Ok x.
Proof. intros H. rewrite getitem_int, H. reflexivity. Qed.

Lemma getitem_int_None (d : gmap Z pynum) (L : Z) :
  d !! L = None -> getitem d (PyInt L) = Err KeyError.
Proof. intros H. rewrite getitem_int, H. reflexivity. Qed.

Lemma ge_value_num (x n : pynum) (t : pyval) :
  as_num t = Some n -> ge_value x t = Ok (py_ge x n).
Proof. unfold ge_value. intros ->. reflexivity. Qed.

(** The observed frequencies of a list of lengths that are all keys. *)
Lemma observed_list_present (d : gmap Z pynum) (vs : list pyval)
    (xs : list pynum) :
  Forall2 (fun v x => getitem d v = Ok x) vs xs ->
  observed_list d vs = Ok xs.
Proof.
  induction 1 as [|v x vs xs Hv _ IH]; simpl.
  - reflexivity.
  - rewrite Hv. simpl. rewrite IH. reflexivity.
Qed.

Lemma all_ge_present (d : gmap Z pynum) (vs : list pyval) (xs : list pynum) :
  Forall2 (fun v x => getitem d v = Ok x) vs xs ->
  forall (ts pre : list pyval) (ns : list pynum),
    Forall2 (fun t n => as_num t = Some n) ts ns ->
    length vs = length ts ->
    all_ge d vs (PyList (pre ++ ts)) (length pre) = Ok (pairwise_ge xs ns).
Proof.
  induction 1 as [|v x vs xs Hv _ IH]; intros ts pre ns Hts Hlen.
  - reflexivity.
  - destruct Hts as [|t n ts ns Ht Hts]; [discriminate Hlen|].
    simpl in Hlen. injection Hlen as Hlen.
    cbn [all_ge]. rewrite Hv. cbn [bind py_index].
    rewrite list_lookup_middle by reflexivity. cbn [bind].
    rewrite (ge_value_num _ _ _ Ht). cbn [bind].
    unfold pairwise_ge. cbn [zip zip_with forallb fst snd].
    destruct (py_ge x n); cbn [andb]; [|reflexivity].
    specialize (IH ts (pre ++ [t]) ns Hts Hlen).
    rewrite <- app_assoc, length_app in IH. cbn [length app] in IH.
    replace (length pre + 1)%nat with (S (length pre)) in IH by lia.
    exact IH.
Qed.

Lemma pairwise_ge_true (xs ns : list pynum) :
  pairwise_ge xs ns = true <->
  forall (i : nat) (x n : pynum),
    xs !! i = Some x -> ns !! i = Some n -> py_ge x n = true.
Proof.
  unfold pairwise_ge. revert ns.
  induction xs as [|x xs IH]; intros ns.
  - split; [intros _ i y n Hi; discriminate Hi | reflexivity].
  - destruct ns as [|n ns].
    + split; [intros _ i y m _ Hi; discriminate Hi | reflexivity].
    + cbn [zip zip_with forallb fst snd]. rewrite andb_true_iff, IH. split.
      * intros [H0 HS] [|i] y m Hy Hm.
        -- injection Hy as <-. injection Hm as <-. exact H0.
        -- exact (HS i y m Hy Hm).
      * intros H. split.
        -- exact (H 0%nat x n eq_refl eq_refl).
        -- intros i y m Hy Hm. exact (H (S i) y m Hy Hm).
Qed.

Lemma Forall2_getitem_ints (d : gmap Z pynum) (Ls : list Z) (xs : list pynum) :
  Forall2 (fun L x => d !! L = Some x) Ls xs ->
  Forall2 (fun v x => getitem d v = Ok x) (map PyInt Ls) xs.
Proof.
  induction 1 as [|L x Ls xs HL _ IH]; simpl; constructor.
  - apply getitem_int_Some, HL.
  - exact IH.
Qed.

(** ** Missing lengths *)

Lemma validate_missing_length_absent
    (configuration : ExpectationConfiguration) (metrics : gmap string rows)
    (r : rows) (L : Z) :
  kwargs_get configuration "value" = PyInt L ->
  metrics !! "query.column" = Some r ->
  dict_of_rows r !! L = None ->
  _validate configuration metrics = Err KeyError.
Proof.
  intros Hv Hm HL. unfold _validate. rewrite Hv, Hm.
  rewrite (getitem_int_None _ _ HL). reflexivity.
Qed.

(** C1 (as the code has it): when the scalar target length is no key of
    the observed frequencies, [_validate] raises [KeyError] and returns no
    result, whatever the threshold. *)
Theorem validate_missing_length_raises
    (configuration : ExpectationConfiguration) (metrics : gmap string rows)
    (r : rows) (L : Z) :
  kwargs_get configuration "value" = PyInt L ->
  metrics !! "query.column" = Some r ->
  dict_of_rows r !! L = None ->
  _validate configuration metrics = Err KeyError.
Proof.
  intros Hv Hm HL. unfold _validate. rewrite Hv, Hm.
  rewrite (getitem_int_None _ _ HL). reflexivity.
Qed.

Lemma validate_missing_length_raises_witness :
  _validate config_32_tenth (metrics_of []) = Err KeyError.
Proof.
  apply (validate_missing_length_raises config_32_tenth (metrics_of []) [] 32);
    reflexivity.
Defined.

(** C1 as stated fails: with no observed frequency, target 32 and
    threshold 0.1 there is no result with [success = false] and
    [observed_value = 0]; the call raises. *)
Lemma validate_missing_length_no_result :
  ~ exists res : ValidationResult,
      _validate config_32_tenth (metrics_of []) = Ok res
      /\ success res = false
      /\ observed_value res = ObsScalar (NInt 0).
Proof.
  intros (res & H & _). vm_compute in H. discriminate H.
Qed.

(** ** Scalar mode *)

(** C2: for a scalar target length [L] that is a key of the observed
    frequencies and a scalar threshold [t] in (0, 1], [_validate] returns
    the frequency of [L] as [observed_value], and [success] is true exactly
    when that frequency is at least [t]. *)
Theorem validate_scalar
    (configuration : ExpectationConfiguration) (metrics : gmap string rows)
    (r : rows) (L : Z) (t : pyval) (n x : pynum) :
  kwargs_get configuration "value" = PyInt L ->
  kwargs_get configuration "threshold" = t ->
  as_num t = Some n ->
  py_lt (NInt 0) n = true ->
  py_le n (NInt 1) = true ->
  metrics !! "query.column" = Some r ->
  dict_of_rows r !! L = Some x ->
  exists res : ValidationResult,
    _validate configuration metrics = Ok res
    /\ observed_value res = ObsScalar x
    /\ (success res = true <-> py_ge x n = true).
Proof.
  intros Hv Ht Hn _ _ Hm HL.
  exists {| success := py_ge x n; observed_value := ObsScalar x |}.
  split; [|split; [reflexivity | reflexivity]].
  unfold _validate. rewrite Hv, Ht, Hm.
  rewrite (getitem_int_Some _ _ _ HL). cbn [bind].
  rewrite (ge_value_num _ _ _ Hn). reflexivity.
Qed.

Lemma validate_scalar_witness :
  exists res : ValidationResult,
    _validate config_32_nine_tenths (metrics_of rows_two_of_five) = Ok res
    /\ observed_value res = ObsScalar (NFloat 0.4)
    /\ (success res = true <-> py_ge (NFloat 0.4) (NFloat 0.9) = true).
Proof.
  apply (validate_scalar config_32_nine_tenths (metrics_of rows_two_of_five)
           rows_two_of_five 32 (PyFloat 0.9) (NFloat 0.9) (NFloat 0.4));
    reflexivity.
Defined.

(** ** Sequence mode *)

Lemma validate_shape
    (configuration : ExpectationConfiguration) (metrics : gmap string rows)
    (res : ValidationResult) :
  _validate configuration metrics = Ok res ->
  match kwargs_get configuration "value", observed_value res with
  | PyList _, ObsList _ => True
  | PyList _, ObsScalar _ => False
  | _, ObsScalar _ => True
  | _, ObsList _ => False
  end.
Proof.
  unfold _validate.
  destruct (metrics !! "query.column") as [r|]; [|discriminate].
  destruct (kwargs_get configuration "value") as [| | | | |vs|].
  6: { destruct (all_ge _ _ _ _); [|discriminate]. cbn [bind].
       destruct (observed_list _ _); [|discriminate]. cbn [bind].
       intros [= <-]. exact I. }
  all: destruct (getitem _ _); [|discriminate]; cbn [bind];
    destruct (ge_value _ _); [|discriminate]; cbn [bind];
    intros [= <-]; exact I.
Qed.

(** C3 (as the code has it): for target lengths that are all keys of the
    observed frequencies and as many numeric thresholds, [_validate]
    returns the list of their frequencies, in order, and [success] is true
    exactly when every frequency is at least the threshold at its index;
    and whenever [_validate] returns, [observed_value] is a list exactly
    when [value] is one. *)
Theorem validate_sequence
    (configuration : ExpectationConfiguration) (metrics : gmap string rows)
    (r : rows) (Ls : list Z) (ts : list pyval) (ns xs : list pynum) :
  kwargs_get configuration "value" = PyList (map PyInt Ls) ->
  kwargs_get configuration "threshold" = PyList ts ->
  Forall2 (fun t n => as_num t = Some n) ts ns ->
  length Ls = length ts ->
  metrics !! "query.column" = Some r ->
  Forall2 (fun L x => dict_of_rows r !! L = Some x) Ls xs ->
  (exists res : ValidationResult,
      _validate configuration metrics = Ok res
      /\ observed_value res = ObsList xs
      /\ (success res = true <->
          forall (i : nat) (x n : pynum),
            xs !! i = Some x -> ns !! i = Some n -> py_ge x n = true))
  /\ (forall (configuration' : ExpectationConfiguration)
             (metrics' : gmap string rows) (res : ValidationResult),
        _validate configuration' metrics' = Ok res ->
        match kwargs_get configuration' "value", observed_value res with
        | PyList _, ObsList _ => True
        | PyList _, ObsScalar _ => False
        | _, ObsScalar _ => True
        | _, ObsList _ => False
        end).
Proof.
  intros Hv Ht Hts Hlen Hm Hxs. split; [|apply validate_shape].
  exists {| success := pairwise_ge xs ns; observed_value := ObsList xs |}.
  split; [|split; [reflexivity | apply pairwise_ge_true]].
  unfold _validate. rewrite Hv, Ht, Hm.
  pose proof (Forall2_getitem_ints _ _ _ Hxs) as Hg.
  assert (Hlen' : length (map PyInt Ls) = length ts)
    by (rewrite length_map; exact Hlen).
  pose proof (all_ge_present _ _ _ Hg ts [] ns Hts Hlen') as Hall.
  cbn [app length] in Hall. rewrite Hall. cbn [bind].
  rewrite (observed_list_present _ _ _ Hg). reflexivity.
Qed.

Lemma validate_sequence_witness :
  exists res : ValidationResult,
    _validate config_two_lengths
      (metrics_of [(32, NFloat 0.75); (16, NFloat 0.25)]) = Ok res
    /\ observed_value res = ObsList [NFloat 0.75; NFloat 0.25]
    /\ success res = true.
Proof.
  destruct (validate_sequence config_two_lengths
              (metrics_of [(32, NFloat 0.75); (16, NFloat 0.25)])
              [(32, NFloat 0.75); (16, NFloat 0.25)] [32; 16]
              [PyFloat 0.5; PyFloat 0.25] [NFloat 0.5; NFloat 0.25]
              [NFloat 0.75; NFloat 0.25])
    as [(res & Hres & Hobs & Hsucc) _].
  - reflexivity.
  - reflexivity.
  - repeat constructor.
  - reflexivity.
  - reflexivity.
  - repeat constructor.
  - exists res. split; [exact Hres|]. split; [exact Hobs|].
    apply Hsucc. intros [|[|i]] x n Hx Hn; try discriminate Hx;
      injection Hx as <-; injection Hn as <-; reflexivity.
Defined.

(** C3 as stated fails: the lists [32] and [0.5] have equal length, but
    with no observed frequency for 32 the call returns nothing. *)
Lemma validate_sequence_missing_key_no_result :
  length [PyInt 32] = length [PyFloat 0.5]
  /\ _validate config_list_32_half (metrics_of []) = Err KeyError
  /\ ~ exists res : ValidationResult,
         _validate config_list_32_half (metrics_of []) = Ok res.
Proof.
  split; [reflexivity|]. split; [reflexivity|].
  intros (res & H). vm_compute in H. discriminate H.
Qed.

(** ** Configuration validation *)

Lemma numbers_as_num (l : list pyval) :
  forallb is_number l = true <->
  exists ns : list pynum, Forall2 (fun t n => as_num t = Some n) l ns.
Proof.
  induction l as [|v l IH]; simpl.
  - split; [intros _; exists []; constructor | reflexivity].
  - rewrite andb_true_iff, IH. unfold is_number. split.
    + intros [Hv [ns Hns]]. destruct (as_num v) as [n|] eqn:E; [|discriminate].
      exists (n :: ns). constructor; assumption.
    + intros [ns Hns]. inversion Hns as [|? n ? ns' Hn Hns']; subst.
      rewrite Hn. split; [reflexivity | exists ns'; exact Hns'].
Qed.

Lemma unit_interval_each_numbers (l : list pyval) (ns : list pynum) :
  Forall2 (fun t n => as_num t = Some n) l ns ->
  unit_interval_each l = Ok (map num_in_unit ns).
Proof.
  induction 1 as [|v n l ns Hn _ IH]; simpl.
  - reflexivity.
  - unfold in_unit_interval. rewrite Hn. cbn [bind]. rewrite IH. reflexivity.
Qed.

Lemma forallb_map_num_in_unit (ns : list pynum) :
  forallb (fun b : bool => b) (map num_in_unit ns) = true <->
  Forall (fun n => num_in_unit n = true) ns.
Proof.
  induction ns as [|n ns IH]; simpl.
  - split; [constructor | reflexivity].
  - rewrite andb_true_iff, IH. split.
    + intros [H1 H2]. constructor; assumption.
    + intros H. inversion H; subst. split; assumption.
Qed.

Lemma py_add_outcome (a b : pynum) :
  (exists c, py_add a b = Ok c) \/ py_add a b = Err OverflowError.
Proof.
  destruct a as [x|x], b as [y|y]; simpl; eauto; unfold float_of_int;
    destruct (binary_normalize _ _ _ _ _); simpl; eauto.
Qed.

(** Summing numbers returns, or overflows converting an [int]. *)
Lemma py_sum_from_outcome (l : list pyval) (ns : list pynum) :
  Forall2 (fun t n => as_num t = Some n) l ns ->
  forall acc : pynum,
    (exists s, py_sum_from acc l = Ok s) \/ py_sum_from acc l = Err OverflowError.
Proof.
  induction 1 as [|v n l ns Hn _ IH]; intros acc; simpl.
  - eauto.
  - rewrite Hn. destruct (py_add_outcome acc n) as [[c ->] | ->]; simpl; eauto.
Qed.

Lemma Forall2_as_num_functional (l : list pyval) (ns ns' : list pynum) :
  Forall2 (fun t n => as_num t = Some n) l ns ->
  Forall2 (fun t n => as_num t = Some n) l ns' ->
  ns = ns'.
Proof.
  intros H. revert ns'. induction H as [|v n l ns Hn _ IH]; intros ns' H'.
  - inversion H'. reflexivity.
  - inversion H' as [|? n' ? ns'' Hn' H'']; subst.
    f_equal; [congruence | apply IH, H''].
Qed.

Lemma threshold_scalar_ok_spec (threshold : pyval) :
  threshold_scalar_ok threshold = true <-> spec_threshold_scalar threshold.
Proof.
  unfold threshold_scalar_ok, spec_threshold_scalar. split.
  - destruct (as_num threshold) as [n|]; [|discriminate].
    intros H. exists n. split; [reflexivity | exact H].
  - intros (n & -> & H). exact H.
Qed.

Lemma threshold_list_ok_true (l : list pyval) :
  threshold_list_ok (PyList l) = Ok true ->
  exists (ns : list pynum) (s : pynum),
    Forall2 (fun t n => as_num t = Some n) l ns
    /\ Forall (fun n => num_in_unit n = true) ns
    /\ py_sum l = Ok s
    /\ num_in_unit s = true.
Proof.
  cbn [threshold_list_ok].
  destruct (forallb is_number l) eqn:Enum; [|discriminate].
  apply numbers_as_num in Enum as [ns Hns].
  rewrite (unit_interval_each_numbers _ _ Hns). cbn [bind].
  destruct (forallb (fun b : bool => b) (map num_in_unit ns)) eqn:Eall;
    [|discriminate].
  apply forallb_map_num_in_unit in Eall.
  destruct (py_sum l) as [s|e] eqn:Es; [|discriminate]. cbn [bind].
  intros [= Hin]. exists ns, s. repeat split; assumption.
Qed.

(** The assertion on [threshold] holds exactly under rule (a) or (b). *)
Lemma threshold_ok_true_iff (threshold : pyval) :
  threshold_ok threshold = Ok true <->
  spec_threshold_scalar threshold \/ spec_threshold_sequence threshold.
Proof.
  unfold threshold_ok. split.
  - destruct (threshold_scalar_ok threshold) eqn:Es.
    + intros _. left. apply threshold_scalar_ok_spec, Es.
    + intros Hl. right.
      destruct threshold as [| | | | |l|]; try discriminate Hl.
      destruct (threshold_list_ok_true l Hl) as (ns & s & Hns & Hall & Hs & Hin).
      exists l, ns, s. repeat split; assumption.
  - intros [Ha | (l & ns & s & -> & Hns & Hall & Hs & Hin)].
    + apply threshold_scalar_ok_spec in Ha. rewrite Ha. reflexivity.
    + cbn [threshold_scalar_ok as_num threshold_list_ok].
      assert (Enum : forallb is_number l = true)
        by (apply numbers_as_num; exists ns; exact Hns).
      rewrite Enum, (unit_interval_each_numbers _ _ Hns). cbn [bind].
      apply forallb_map_num_in_unit in Hall. rewrite Hall, Hs. cbn [bind].
      unfold num_in_unit in Hin. rewrite Hin. reflexivity.
Qed.

(** The assertion raises only when the sum of a list of numbers, all in
    (0, 1], overflows. *)
Lemma threshold_ok_overflow (threshold : pyval) (e : exn) :
  threshold_ok threshold = Err e ->
  e = OverflowError
  /\ exists (l : list pyval) (ns : list pynum),
       threshold = PyList l
       /\ Forall2 (fun t n => as_num t = Some n) l ns
       /\ Forall (fun n => num_in_unit n = true) ns
       /\ py_sum l = Err OverflowError.
Proof.
  unfold threshold_ok.
  destruct (threshold_scalar_ok threshold); [discriminate|].
  destruct threshold as [| | | | |l|]; try discriminate.
  cbn [threshold_list_ok].
  destruct (forallb is_number l) eqn:Enum; [|discriminate].
  apply numbers_as_num in Enum as [ns Hns].
  rewrite (unit_interval_each_numbers _ _ Hns). cbn [bind].
  destruct (forallb (fun b : bool => b) (map num_in_unit ns)) eqn:Eall;
    [|discriminate].
  apply forallb_map_num_in_unit in Eall.
  destruct (py_sum_from_outcome _ _ Hns (NInt 0)) as [[s Hs] | Hover];
    fold (py_sum l) in *.
  - rewrite Hs. discriminate.
  - rewrite Hover. cbn [bind]. intros [= <-].
    split; [reflexivity|]. exists l, ns. repeat split; assumption.
Qed.

Lemma same_shape_spec (value threshold : pyval) :
  (is_list threshold = true -> same_shape value threshold = true) <->
  spec_paired value threshold.
Proof.
  unfold spec_paired. split.
  - intros H ts ->. specialize (H eq_refl).
    destruct value as [| | | | |vs|]; try discriminate H.
    exists vs. split; [reflexivity|]. apply Nat.eqb_eq, H.
  - intros H Hl. destruct threshold as [| | | | |ts|]; try discriminate Hl.
    destruct (H ts eq_refl) as (vs & -> & Hlen).
    apply Nat.eqb_eq, Hlen.
Qed.

(** The checks of the [try] block, outcome by outcome. *)
Lemma configuration_checks_cases (value threshold : pyval) :
  configuration_checks value threshold =
  if is_not_int value then
    match threshold_ok threshold with
    | Ok true =>
        if is_list threshold then
          if same_shape value threshold then Ok tt
          else Err (AssertionError pairing_message)
        else Ok tt
    | Ok false => Err (AssertionError threshold_message)
    | Err e => Err e
    end
  else Err (AssertionError value_message).
Proof.
  unfold configuration_checks, py_assert.
  destruct (is_not_int value); [|reflexivity]. cbn [bind].
  destruct (threshold_ok threshold) as [[|]|e]; cbn [bind]; try reflexivity.
Qed.

Lemma threshold_ok_error (threshold : pyval) (e : exn) :
  threshold_ok threshold = Err e -> e = OverflowError.
Proof. intros H. apply (threshold_ok_overflow _ _ H). Qed.

Lemma messages_differ :
  threshold_message <> value_message /\ pairing_message <> value_message.
Proof. split; apply String.eqb_neq; reflexivity. Qed.

(** C4 (as the code has it): when the check of the base class passes,
    [validate_configuration] raises [InvalidExpectationConfigurationError]
    whenever [threshold] is neither (a) a single number in (0, 1] nor (b) a
    sequence of numbers in (0, 1] whose sum is in (0, 1], and whenever
    [threshold] is a sequence and [value] is not a sequence of the same
    length; in particular it raises for [threshold=1.5] and for
    [threshold=[0.5, 0.6]].  For a [value] that is not the type object
    [int] and is not a sequence given with a single threshold, it raises in
    no other case.  What the call does for those two kinds of [value] is
    left open.  Raising here includes the [OverflowError] of a sum of
    thresholds, all in (0, 1], that is too large for a float. *)
Theorem validate_configuration_raises_iff
    (super_validate_configuration : option ExpectationConfiguration -> result unit)
    (c : ExpectationConfiguration) :
  super_validate_configuration (Some c) = Ok tt ->
  ((~ (spec_threshold_scalar (kwargs_get c "threshold")
       \/ spec_threshold_sequence (kwargs_get c "threshold"))
    \/ ~ spec_paired (kwargs_get c "value") (kwargs_get c "threshold")) ->
   rejects (validate_configuration super_validate_configuration (Some c)))
  /\ (kwargs_get c "value" <> PyTypeInt ->
      (is_list (kwargs_get c "value") = true ->
       is_list (kwargs_get c "threshold") = true) ->
      rejects (validate_configuration super_validate_configuration (Some c)) ->
      ~ (spec_threshold_scalar (kwargs_get c "threshold")
         \/ spec_threshold_sequence (kwargs_get c "threshold"))
      \/ ~ spec_paired (kwargs_get c "value") (kwargs_get c "threshold"))
  /\ (validate_configuration super_validate_configuration (Some c)
      = Err OverflowError ->
      exists (l : list pyval) (ns : list pynum),
        kwargs_get c "threshold" = PyList l
        /\ Forall2 (fun t n => as_num t = Some n) l ns
        /\ Forall (fun n => num_in_unit n = true) ns
        /\ py_sum l = Err OverflowError)
  /\ (kwargs_get c "threshold" = PyFloat 1.5 ->
      raises_configuration_error
        (validate_configuration super_validate_configuration (Some c)))
  /\ (kwargs_get c "threshold" = PyList [PyFloat 0.5; PyFloat 0.6] ->
      raises_configuration_error
        (validate_configuration super_validate_configuration (Some c))).
Proof.
  intros Hsuper.
  unfold validate_configuration, rejects, raises_configuration_error.
  rewrite Hsuper. cbn [bind]. rewrite configuration_checks_cases.
  set (value := kwargs_get c "value") in *.
  set (threshold := kwargs_get c "threshold") in *.
  rewrite <- (same_shape_spec value threshold), <- (threshold_ok_true_iff threshold).
  split; [|split; [|split; [|split]]].
  - intros Hrule. destruct (is_not_int value); [|left; eexists; reflexivity].
    destruct (threshold_ok threshold) as [[|]|e] eqn:Eok.
    + destruct Hrule as [H | H]; [contradiction|].
      destruct (is_list threshold); [|exfalso; apply H; discriminate].
      destruct (same_shape value threshold);
        [exfalso; apply H; reflexivity | left; eexists; reflexivity].
    + left. eexists. reflexivity.
    + apply threshold_ok_error in Eok as ->. right. reflexivity.
  - intros Hint _ Hrej.
    assert (Ev : is_not_int value = true)
      by (destruct value; try reflexivity; contradiction).
    rewrite Ev in Hrej.
    destruct (threshold_ok threshold) as [[|]|e] eqn:Eok;
      [|left; discriminate | left; discriminate].
    right. intros Hshape.
    destruct (is_list threshold).
    + rewrite (Hshape eq_refl) in Hrej.
      destruct Hrej as [[msg H] | H]; discriminate H.
    + destruct Hrej as [[msg H] | H]; discriminate H.
  - destruct (is_not_int value); [|discriminate].
    destruct (threshold_ok threshold) as [[|]|e] eqn:Eok.
    + destruct (is_list threshold); [destruct (same_shape value threshold)|];
        discriminate.
    + discriminate.
    + intros _. exact (proj2 (threshold_ok_overflow _ _ Eok)).
  - intros Ht. rewrite Ht.
    destruct (is_not_int value); cbn; eexists; reflexivity.
  - intros Ht. rewrite Ht.
    destruct (is_not_int value); cbn; eexists; reflexivity.
Qed.

Lemma validate_configuration_raises_iff_witness :
  raises_configuration_error
    (validate_configuration super_accepts
       (Some (kwargs_of [("value", PyInt 32); ("threshold", PyFloat 1.5)])))
  /\ ~ rejects (validate_configuration super_accepts (Some config_32_nine_tenths)).
Proof.
  split.
  - exact (proj1 (proj2 (proj2 (proj2
             (validate_configuration_raises_iff super_accepts
                (kwargs_of [("value", PyInt 32); ("threshold", PyFloat 1.5)])
                eq_refl)))) eq_refl).
  - intros Hrej.
    destruct (proj1 (proj2 (validate_configuration_raises_iff super_accepts
                       config_32_nine_tenths eq_refl))
                ltac:(discriminate) ltac:(discriminate) Hrej) as [H | H].
    + apply H. left. exists (NFloat 0.9). split; reflexivity.
    + apply H. intros ts Hts. discriminate Hts.
Defined.

(** C4 as stated fails: with [value=int] and [threshold=0.5] the call
    raises the configuration error, although the threshold satisfies rule
    (a) and, not being a sequence, the pairing rule. *)
Lemma validate_configuration_type_int_raises :
  raises_configuration_error
    (validate_configuration super_accepts (Some config_type_int))
  /\ spec_threshold_scalar (kwargs_get config_type_int "threshold")
  /\ spec_paired (kwargs_get config_type_int "value")
       (kwargs_get config_type_int "threshold").
Proof.
  split; [|split].
  - exists value_message. reflexivity.
  - exists (NFloat 0.5). split; reflexivity.
  - intros ts H. vm_compute in H. discriminate H.
Qed.

(** C5, at the input it fails on: with [value=[32, 16]] and
    [threshold=0.9] [validate_configuration] raises nothing once the base
    class accepts, and [_validate] then returns for no metrics. *)
Theorem validate_configuration_accepts_list_value_scalar_threshold
    (super_validate_configuration : option ExpectationConfiguration -> result unit) :
  super_validate_configuration (Some config_list_scalar) = Ok tt ->
  validate_configuration super_validate_configuration (Some config_list_scalar)
  = Ok tt
  /\ forall metrics : gmap string rows,
       ~ returns (_validate config_list_scalar metrics).
Proof.
  intros Hsuper. split.
  - unfold validate_configuration. rewrite Hsuper. reflexivity.
  - intros metrics [res H]. unfold _validate in H.
    destruct (metrics !! "query.column") as [r|]; [|discriminate H].
    change (kwargs_get config_list_scalar "value")
      with (PyList [PyInt 32; PyInt 16]) in H.
    change (kwargs_get config_list_scalar "threshold") with (PyFloat 0.9) in H.
    cbn [all_ge] in H.
    destruct (getitem (dict_of_rows r) (PyInt 32)); discriminate H.
Qed.

Lemma validate_configuration_accepts_list_value_scalar_threshold_witness :
  validate_configuration super_accepts (Some config_list_scalar) = Ok tt
  /\ forall metrics : gmap string rows,
       ~ returns (_validate config_list_scalar metrics).
Proof.
  apply (validate_configuration_accepts_list_value_scalar_threshold super_accepts).
  reflexivity.
Defined.

(** C6: the check [value is not int] holds for every value that is not the
    type object [int] itself, so for such a value [validate_configuration]
    never raises with the message "'value' must be an integer" (unless the
    base class raises just that). *)
Theorem value_check_is_vacuous
    (super_validate_configuration : option ExpectationConfiguration -> result unit)
    (c : ExpectationConfiguration) :
  kwargs_get c "value" <> PyTypeInt ->
  super_validate_configuration (Some c)
  <> Err (InvalidExpectationConfigurationError value_message) ->
  is_not_int (kwargs_get c "value") = true
  /\ validate_configuration super_validate_configuration (Some c)
     <> Err (InvalidExpectationConfigurationError value_message).
Proof.
  intros Hv Hsuper.
  assert (Hnot : is_not_int (kwargs_get c "value") = true)
    by (destruct (kwargs_get c "value"); try reflexivity; contradiction).
  split; [exact Hnot|].
  unfold validate_configuration.
  destruct (super_validate_configuration (Some c)) as [[]|e]; cbn [bind];
    [|exact Hsuper].
  rewrite configuration_checks_cases, Hnot.
  destruct messages_differ as [Ht Hp].
  destruct (threshold_ok (kwargs_get c "threshold")) as [[|]|e] eqn:Eok.
  - destruct (is_list _); [destruct (same_shape _ _)|]; cbn; congruence.
  - cbn. congruence.
  - apply threshold_ok_error in Eok as ->. cbn. discriminate.
Qed.

Lemma value_check_is_vacuous_witness :
  is_not_int (PyStr "thirty-two") = true
  /\ validate_configuration super_accepts
       (Some (kwargs_of [("value", PyStr "thirty-two"); ("threshold", PyInt 1)]))
     <> Err (InvalidExpectationConfigurationError value_message).
Proof.
  apply (value_check_is_vacuous super_accepts
           (kwargs_of [("value", PyStr "thirty-two"); ("threshold", PyInt 1)])).
  - intros H. vm_compute in H. discriminate H.
  - discriminate.
Defined.

(** ** Effects of [_validate] *)

Lemma validate_verdict (configuration : ExpectationConfiguration)
    (metrics : gmap string rows) :
  _validate configuration metrics =
  match metrics !! "query.column" with
  | Some r =>
      verdict (kwargs_get configuration "value")
        (kwargs_get configuration "threshold") (dict_of_rows r)
  | None => Err TypeError
  end.
Proof.
  unfold _validate, verdict.
  destruct (metrics !! "query.column"); [|reflexivity].
  destruct (kwargs_get configuration "value"); reflexivity.
Qed.

Lemma alloc_fresh (σ : store) (o : pyobj) : σ !! (alloc σ o).1 = None.
Proof. apply not_elem_of_dom, is_fresh. Qed.

Lemma alloc_lookup (σ : store) (o : pyobj) :
  (alloc σ o).2 !! (alloc σ o).1 = Some o.
Proof. apply lookup_insert_eq. Qed.

(** Allocation leaves every object of the store as it is. *)
Lemma alloc_preserves (σ : store) (o o' : pyobj) (l : loc) :
  σ !! l = Some o' -> (alloc σ o).2 !! l = Some o'.
Proof.
  intros H. unfold alloc. cbn [snd].
  rewrite lookup_insert_ne; [exact H|].
  intros E. pose proof (alloc_fresh σ o) as Hf. unfold alloc in Hf.
  cbn [fst] in Hf. rewrite E in Hf. congruence.
Qed.

(** C8: a call of [_validate] leaves every object of the store as it was,
    whether it returns or raises: the configuration, the metrics
    dictionary and the rows of [query.column], which are copied into a new
    dictionary, are unchanged; and what the call returns is a new object
    holding the result [_validate] computes from the configuration and the
    metrics. *)
Theorem validate_mutates_nothing
    (configuration metrics : loc) (σ : store) (l : loc) (o : pyobj) :
  σ !! l = Some o ->
  (_validate_in_store configuration metrics σ).2 !! l = Some o
  /\ (forall (c : ExpectationConfiguration) (m : gmap string loc),
        σ !! configuration = Some (ObjConfiguration c) ->
        σ !! metrics = Some (ObjMetrics m) ->
        match (_validate_in_store configuration metrics σ).1 with
        | Ok l' =>
            σ !! l' = None
            /\ exists res : ValidationResult,
                 _validate c (metrics_view σ m) = Ok res
                 /\ (_validate_in_store configuration metrics σ).2 !! l'
                    = Some (ObjResult res)
        | Err e =>
            metrics_get σ m "query.column" = None
            \/ (exists r, metrics_get σ m "query.column" = Some (ObjRows r)
                          /\ _validate c (metrics_view σ m) = Err e)
            \/ (exists o', metrics_get σ m "query.column" = Some o'
                           /\ forall r, o' <> ObjRows r)
        end).
Proof.
  intros Hl. unfold _validate_in_store. split.
  - destruct (σ !! configuration) as [[c| | | |]|]; try exact Hl.
    destruct (σ !! metrics) as [[|m| | |]|]; try exact Hl.
    destruct (metrics_get σ m "query.column") as [[| |r| |]|]; try exact Hl.
    destruct (alloc σ (ObjDict (dict_of_rows r))) as [q σ1] eqn:Ea.
    assert (H1 : σ1 !! l = Some o).
    { pose proof (alloc_preserves σ (ObjDict (dict_of_rows r)) o l Hl) as H.
      rewrite Ea in H. exact H. }
    destruct (σ1 !! q) as [[| | |d|]|]; try exact H1.
    destruct (verdict _ _ d) as [res|e]; [|exact H1].
    destruct (alloc σ1 (ObjResult res)) as [l' σ2] eqn:Ea2.
    pose proof (alloc_preserves σ1 (ObjResult res) o l H1) as H.
    rewrite Ea2 in H. exact H.
  - intros c m Hc Hm. rewrite Hc, Hm.
    assert (Hview : forall r, metrics_get σ m "query.column" = Some (ObjRows r) ->
                              metrics_view σ m !! "query.column" = Some r).
    { intros r Hr. unfold metrics_view, metrics_get in *.
      rewrite lookup_omap. destruct (m !! "query.column") as [lr|]; [|discriminate].
      cbn. rewrite Hr. reflexivity. }
    destruct (metrics_get σ m "query.column") as [[| |r| |]|] eqn:Eg; cbn [fst];
      try (right; right; eexists; split; [reflexivity | intros r; discriminate]);
      [|left; reflexivity].
    specialize (Hview r eq_refl).
    pose proof (alloc_lookup σ (ObjDict (dict_of_rows r))) as Hq.
    pose proof (alloc_fresh σ (ObjDict (dict_of_rows r))) as Hqf.
    destruct (alloc σ (ObjDict (dict_of_rows r))) as [q σ1] eqn:Ea.
    cbn [fst snd] in Hq, Hqf. rewrite Hq.
    rewrite validate_verdict, Hview.
    destruct (verdict _ _ (dict_of_rows r)) as [res|e] eqn:Ev.
    + pose proof (alloc_lookup σ1 (ObjResult res)) as Hr.
      pose proof (alloc_fresh σ1 (ObjResult res)) as Hrf.
      destruct (alloc σ1 (ObjResult res)) as [l' σ2] eqn:Ea2.
      cbn [fst snd] in *. split.
      * destruct (σ !! l') as [o'|] eqn:El; [|reflexivity].
        pose proof (alloc_preserves σ (ObjDict (dict_of_rows r)) o' l' El) as H.
        rewrite Ea in H. cbn [snd] in H. congruence.
      * exists res. split; [reflexivity | exact Hr].
    + cbn [fst]. right. left. exists r. split; reflexivity.
Qed.

Lemma validate_mutates_nothing_witness :
  (_validate_in_store 1%positive 2%positive sample_store).2 !! 3%positive
  = Some (ObjRows rows_two_of_five).
Proof.
  exact (proj1 (validate_mutates_nothing 1%positive 2%positive sample_store
                  3%positive (ObjRows rows_two_of_five) eq_refl)).
Defined.

(** * Properties of the file data context *)

Lemma add_reads_nil (w : world) : add_reads w [] = w.
Proof. destruct w. unfold add_reads. simpl. rewrite app_nil_r. reflexivity. Qed.

Lemma add_reads_app (w : world) (ps qs : list string) :
  add_reads (add_reads w ps) qs = add_reads w (ps ++ qs).
Proof. unfold add_reads. simpl. rewrite app_assoc. reflexivity. Qed.

Section FileDataContextFacts.

Variable FALSEY_STRINGS : list string.
Variable GLOBAL_CONFIG_PATHS : list string.
Variable h : host.

(** The loop stops at the first file with a non-empty value, having
    read the files up to it. *)
Lemma value_in_files_found (section opt : string) (pre post : list string)
    (p v : string) (w : world) :
  Forall (yields_nothing h section opt) pre ->
  config_get (config_read h p) section opt = Some v ->
  truthy v = true ->
  value_in_files h (pre ++ p :: post) section opt w
  = (Some v, add_reads w (pre ++ [p])).
Proof.
  intros Hpre Hv Ht. revert w.
  induction Hpre as [|q pre Hq _ IH]; intros w; cbn [app value_in_files].
  - rewrite Hv, Ht. reflexivity.
  - fold (add_reads w [q]).
    destruct (config_get (config_read h q) section opt) as [u|] eqn:Eu.
    + rewrite (Hq u Eu), IH, add_reads_app. reflexivity.
    + rewrite IH, add_reads_app. reflexivity.
Qed.

Lemma value_in_files_none (section opt : string) (paths : list string)
    (w : world) :
  Forall (yields_nothing h section opt) paths ->
  value_in_files h paths section opt w = (None, add_reads w paths).
Proof.
  intros Hall. revert w.
  induction Hall as [|q paths Hq _ IH]; intros w; cbn [value_in_files].
  - rewrite add_reads_nil. reflexivity.
  - fold (add_reads w [q]).
    destruct (config_get (config_read h q) section opt) as [u|] eqn:Eu.
    + rewrite (Hq u Eu), IH, add_reads_app. reflexivity.
    + rewrite IH, add_reads_app. reflexivity.
Qed.

(** C7: when section and option are both given, [_get_global_config_value]
    returns the value of the named environment variable if it is set and
    non-empty, reading no file; otherwise it reads the files of
    [GLOBAL_CONFIG_PATHS] in order and returns the first non-empty value of
    the option, reading no file after it; and [None] if no file has one. *)
Theorem global_config_value_precedence
    (environment_variable section opt : string) (w : world) :
  truthy section = true ->
  truthy opt = true ->
  (forall v : string,
      truthy environment_variable = true ->
      environ h !! environment_variable = Some v ->
      truthy v = true ->
      _get_global_config_value GLOBAL_CONFIG_PATHS h environment_variable
        (Some section) (Some opt) w
      = (Ok (Some v), w))
  /\ ((truthy environment_variable = false
       \/ environ_get h environment_variable = None) ->
      (forall (i : nat) (p v : string),
          GLOBAL_CONFIG_PATHS !! i = Some p ->
          Forall (yields_nothing h section opt) (take i GLOBAL_CONFIG_PATHS) ->
          config_get (config_read h p) section opt = Some v ->
          truthy v = true ->
          _get_global_config_value GLOBAL_CONFIG_PATHS h environment_variable
            (Some section) (Some opt) w
          = (Ok (Some v), add_reads w (take (S i) GLOBAL_CONFIG_PATHS)))
      /\ (Forall (yields_nothing h section opt) GLOBAL_CONFIG_PATHS ->
          _get_global_config_value GLOBAL_CONFIG_PATHS h environment_variable
            (Some section) (Some opt) w
          = (Ok None, add_reads w GLOBAL_CONFIG_PATHS))).
Proof.
  intros Hs Ho. unfold _get_global_config_value. cbn [truthy_opt].
  rewrite Hs, Ho. cbn [andb orb negb]. split.
  - intros v Hvar Henv Hv. rewrite Hvar. unfold environ_get.
    rewrite Henv, Hv. reflexivity.
  - intros Hnone.
    assert (Henv : (if truthy environment_variable
                    then environ_get h environment_variable else None) = None).
    { destruct Hnone as [-> | ->]; [reflexivity|].
      destruct (truthy environment_variable); reflexivity. }
    rewrite Henv. split.
    + intros i p v Hp Hpre Hv Htv.
      rewrite <- (take_drop_middle _ _ _ Hp) at 1.
      rewrite (value_in_files_found section opt _ _ p v w Hpre Hv Htv).
      rewrite (take_S_r _ _ _ Hp). reflexivity.
    + intros Hall. rewrite (value_in_files_none section opt _ w Hall).
      reflexivity.
Qed.


Lemma lookup_fold_insert_false (l : list string) (states : gmap string bool)
    (k : string) :
  fold_left (fun st f => <[f := false]> st) l states !! k
  = if decide (k ∈ l) then Some false else states !! k.
Proof.
  revert states. induction l as [|f l IH]; intros states; cbn [fold_left].
  - destruct (decide (k ∈ [])) as [H|_]; [|reflexivity].
    apply elem_of_nil in H. contradiction.
  - rewrite IH. destruct (decide (k ∈ l)) as [Hin|Hnin].
    + rewrite decide_True by (right; exact Hin). reflexivity.
    + destruct (decide (f = k)) as [<-|Hne].
      * rewrite lookup_insert_eq, decide_True by left. reflexivity.
      * rewrite lookup_insert_ne by exact Hne.
        rewrite decide_False; [reflexivity|].
        intros H. apply elem_of_cons in H as [->|H]; contradiction.
Qed.

(** What [BOOLEAN_STATES] maps a key to once the loop body has run. *)
Lemma lookup_extend_boolean_states (states : gmap string bool) (k : string) :
  extend_boolean_states FALSEY_STRINGS states !! k
  = if decide (k = "True") then Some true
    else if decide (k = "TRUE") then Some true
    else if decide (k ∈ FALSEY_STRINGS) then Some false
    else states !! k.
Proof.
  unfold extend_boolean_states.
  destruct (decide (k = "True")) as [->|H1].
  - apply lookup_insert_eq.
  - rewrite lookup_insert_ne by congruence.
    destruct (decide (k = "TRUE")) as [->|H2].
    + apply lookup_insert_eq.
    + rewrite lookup_insert_ne by congruence.
      apply lookup_fold_insert_false.
Qed.

Lemma extend_boolean_states_idempotent (states : gmap string bool) :
  extend_boolean_states FALSEY_STRINGS
    (extend_boolean_states FALSEY_STRINGS states)
  = extend_boolean_states FALSEY_STRINGS states.
Proof.
  apply map_eq. intros k. rewrite !lookup_extend_boolean_states.
  repeat case_decide; reflexivity.
Qed.

(** The loop answers whether some file opts out, reads the files up to
    the first that does, and logs nothing. *)
Lemma opt_out_in_files_spec (paths : list string) (w : world) :
  fst (opt_out_in_files FALSEY_STRINGS h paths w)
  = existsb (file_opts_out
               (extend_boolean_states FALSEY_STRINGS (BOOLEAN_STATES w)) h)
      paths
  /\ warnings (snd (opt_out_in_files FALSEY_STRINGS h paths w)) = warnings w.
Proof.
  revert w. induction paths as [|p paths IH]; intros w;
    cbn [opt_out_in_files existsb].
  - split; reflexivity.
  - unfold file_opts_out at 1.
    match goal with
    | |- context [opt_out_in_files _ _ paths ?w1] => specialize (IH w1)
    end.
    cbn [BOOLEAN_STATES warnings] in IH.
    rewrite extend_boolean_states_idempotent in IH.
    destruct (config_getboolean _ _ _ _) as [[|]|e]; cbn [fst snd orb warnings];
      try exact IH.
    split; reflexivity.
Qed.

(** C10: [_check_global_usage_statistics_env_var_and_file_opt_out] returns
    [True] from the environment check, reading no file and logging nothing,
    when [GE_USAGE_STATS] is a falsey string; when it is any other
    non-empty value the call logs one warning and goes on to the files,
    returning [True] exactly when the option of some file parses as
    [False]; so the result is [False] exactly when neither the variable
    nor any file opts out. *)
Theorem usage_statistics_opt_out (w : world) :
  (env_opts_out FALSEY_STRINGS h = true ->
   _check_global_usage_statistics_env_var_and_file_opt_out
     FALSEY_STRINGS GLOBAL_CONFIG_PATHS h w = (true, w))
  /\ (forall v : string,
        environ_get h "GE_USAGE_STATS" = Some v ->
        v ∉ FALSEY_STRINGS ->
        warnings (snd (_check_global_usage_statistics_env_var_and_file_opt_out
                         FALSEY_STRINGS GLOBAL_CONFIG_PATHS h w))
        = warnings w ++ [WarnUsageStatsMustBeOneOf FALSEY_STRINGS]
        /\ fst (_check_global_usage_statistics_env_var_and_file_opt_out
                  FALSEY_STRINGS GLOBAL_CONFIG_PATHS h w)
           = existsb (file_opts_out
                        (extend_boolean_states FALSEY_STRINGS (BOOLEAN_STATES w)) h)
               GLOBAL_CONFIG_PATHS)
  /\ (fst (_check_global_usage_statistics_env_var_and_file_opt_out
             FALSEY_STRINGS GLOBAL_CONFIG_PATHS h w) = false <->
      env_opts_out FALSEY_STRINGS h = false
      /\ existsb (file_opts_out
                    (extend_boolean_states FALSEY_STRINGS (BOOLEAN_STATES w)) h)
           GLOBAL_CONFIG_PATHS = false).
Proof.
  unfold _check_global_usage_statistics_env_var_and_file_opt_out, env_opts_out.
  destruct (environ_get h "GE_USAGE_STATS") as [v|] eqn:Eenv.
  - destruct (bool_decide (v ∈ FALSEY_STRINGS)) eqn:Ein.
    + split; [reflexivity|]. split.
      * intros v' [= <-] Hnin. apply bool_decide_eq_true in Ein. contradiction.
      * cbn [fst]. split; [discriminate | intros [H _]; discriminate H].
    + match goal with
      | |- context [opt_out_in_files _ _ _ ?w1] =>
          destruct (opt_out_in_files_spec GLOBAL_CONFIG_PATHS w1) as [Hfst Hwarn]
      end.
      cbn [BOOLEAN_STATES warnings] in Hfst, Hwarn.
      split; [discriminate|]. split.
      * intros v' _ _. split; [exact Hwarn | exact Hfst].
      * rewrite Hfst. split; [intros H; split; [reflexivity | exact H] | tauto].
  - destruct (opt_out_in_files_spec GLOBAL_CONFIG_PATHS w) as [Hfst _].
    split; [discriminate|]. split; [discriminate|].
    rewrite Hfst. split; [intros H; split; [reflexivity | exact H] | tauto].
Qed.

End FileDataContextFacts.

Lemma global_config_value_precedence_witness :
  _get_global_config_value sample_config_paths
    (host_with_etc (section_with "data_context_id" "0123"))
    "GE_DATA_CONTEXT_ID" (Some "anonymous_usage_statistics")
    (Some "data_context_id") initial_world
  = (Ok (Some "0123"), add_reads initial_world sample_config_paths).
Proof.
  refine (proj1 (proj2 (global_config_value_precedence sample_config_paths
            (host_with_etc (section_with "data_context_id" "0123"))
            "GE_DATA_CONTEXT_ID" "anonymous_usage_statistics" "data_context_id"
            initial_world eq_refl eq_refl) (or_intror eq_refl))
          1%nat "/etc/great_expectations.conf" "0123" eq_refl _ eq_refl eq_refl).
  repeat constructor. intros u H. vm_compute in H. discriminate H.
Defined.

(** * Further properties of [_validate] *)

Lemma observed_list_missing (d : gmap Z pynum) (Ls : list Z) :
  Exists (fun L => d !! L = None) Ls ->
  observed_list d (map PyInt Ls) = Err KeyError.
Proof.
  induction Ls as [|L Ls IH]; intros H; [inversion H|].
  cbn [map observed_list]. rewrite getitem_int.
  destruct (d !! L) as [x|] eqn:EL; [|reflexivity].
  cbn [bind]. inversion H as [? ? H0|? ? H1]; subst; [congruence|].
  rewrite (IH H1). reflexivity.
Qed.

Lemma all_ge_ints_outcome (d : gmap Z pynum) (Ls : list Z) :
  forall (ts pre : list pyval) (ns : list pynum),
    Forall2 (fun t n => as_num t = Some n) ts ns ->
    length Ls = length ts ->
    (exists b, all_ge d (map PyInt Ls) (PyList (pre ++ ts)) (length pre) = Ok b)
    \/ all_ge d (map PyInt Ls) (PyList (pre ++ ts)) (length pre) = Err KeyError.
Proof.
  induction Ls as [|L Ls IH]; intros ts pre ns Hts Hlen.
  - left. exists true. reflexivity.
  - destruct Hts as [|t n ts ns Ht Hts]; [discriminate Hlen|].
    injection Hlen as Hlen. cbn [map all_ge]. rewrite getitem_int.
    destruct (d !! L) as [x|]; [|right; reflexivity].
    cbn [bind py_index]. rewrite list_lookup_middle by reflexivity. cbn [bind].
    rewrite (ge_value_num _ _ _ Ht). cbn [bind].
    destruct (py_ge x n); [|left; exists false; reflexivity].
    specialize (IH ts (pre ++ [t]) ns Hts Hlen).
    rewrite <- app_assoc, length_app in IH. cbn [length app] in IH.
    replace (length pre + 1)%nat with (S (length pre)) in IH by lia.
    exact IH.
Qed.

(** X1: in sequence mode one target length without a row is enough for
    [KeyError], also when an earlier comparison has already failed: the
    list of observed values is built over all the lengths. *)
Theorem validate_sequence_missing_length_raises
    (configuration : ExpectationConfiguration) (metrics : gmap string rows)
    (r : rows) (Ls : list Z) (ts : list pyval) (ns : list pynum) :
  kwargs_get configuration "value" = PyList (map PyInt Ls) ->
  kwargs_get configuration "threshold" = PyList ts ->
  Forall2 (fun t n => as_num t = Some n) ts ns ->
  length Ls = length ts ->
  metrics !! "query.column" = Some r ->
  Exists (fun L => dict_of_rows r !! L = None) Ls ->
  _validate configuration metrics = Err KeyError.
Proof.
  intros Hv Ht Hts Hlen Hm Hex. unfold _validate. rewrite Hv, Ht, Hm.
  destruct (all_ge_ints_outcome (dict_of_rows r) Ls ts [] ns Hts Hlen)
    as [[b Hb] | Hb]; cbn [app length] in Hb; rewrite Hb; cbn [bind].
  - rewrite (observed_list_missing _ _ Hex). reflexivity.
  - reflexivity.
Qed.

Lemma validate_sequence_missing_length_raises_witness :
  _validate config_two_lengths (metrics_of [(32, NFloat 0.25)]) = Err KeyError.
Proof.
  apply (validate_sequence_missing_length_raises config_two_lengths
           (metrics_of [(32, NFloat 0.25)]) [(32, NFloat 0.25)] [32; 16]
           [PyFloat 0.5; PyFloat 0.25] [NFloat 0.5; NFloat 0.25]).
  - reflexivity.
  - reflexivity.
  - repeat constructor.
  - reflexivity.
  - reflexivity.
  - right. left. reflexivity.
Defined.

(** X2: a non-empty list of target lengths with a single number as threshold
    is never validated: [threshold[i]] raises once the first length has
    been looked up, whatever the metrics. *)
Theorem validate_list_value_scalar_threshold_never_returns
    (configuration : ExpectationConfiguration) (metrics : gmap string rows)
    (v : pyval) (vs : list pyval) (n : pynum) :
  kwargs_get configuration "value" = PyList (v :: vs) ->
  as_num (kwargs_get configuration "threshold") = Some n ->
  _validate configuration metrics = Err TypeError
  \/ _validate configuration metrics = Err KeyError.
Proof.
  intros Hv Ht. unfold _validate. rewrite Hv.
  destruct (metrics !! "query.column") as [r|]; [|left; reflexivity].
  cbn [all_ge].
  assert (Hidx : py_index (kwargs_get configuration "threshold") 0 = Err TypeError)
    by (destruct (kwargs_get configuration "threshold"); try discriminate Ht;
        reflexivity).
  unfold getitem. destruct v as [| | | | |l|];
    try (left; reflexivity);
    destruct (int_key _) as [key|]; try (right; reflexivity);
    destruct (dict_of_rows r !! key); try (right; reflexivity);
    cbn [bind]; rewrite Hidx; left; reflexivity.
Qed.

Lemma validate_list_value_scalar_threshold_never_returns_witness :
  _validate config_list_scalar (metrics_of [(32, NFloat 1); (16, NFloat 0)])
  = Err TypeError
  \/ _validate config_list_scalar (metrics_of [(32, NFloat 1); (16, NFloat 0)])
     = Err KeyError.
Proof.
  apply (validate_list_value_scalar_threshold_never_returns config_list_scalar
           (metrics_of [(32, NFloat 1); (16, NFloat 0)])
           (PyInt 32) [PyInt 16] (NFloat 0.9)); reflexivity.
Defined.

Lemma fold_insert_lookup_other (r : rows) (d : gmap Z pynum) (k : Z) :
  k ∉ r.*1 ->
  fold_left (fun d kv => <[kv.1 := kv.2]> d) r d !! k = d !! k.
Proof.
  revert d. induction r as [|[k' x] r IH]; intros d Hk; cbn [fold_left].
  - reflexivity.
  - cbn [fmap list_fmap fst] in Hk. apply not_elem_of_cons in Hk as [Hne Hk].
    rewrite (IH _ Hk). cbn [fst snd]. apply lookup_insert_ne. congruence.
Qed.

(** [dict(query_result)]: the last row with a given length decides. *)
Lemma dict_of_rows_last (r1 r2 : rows) (k : Z) (x : pynum) :
  k ∉ r2.*1 ->
  dict_of_rows (r1 ++ (k, x) :: r2) !! k = Some x.
Proof.
  intros Hk. unfold dict_of_rows. rewrite fold_left_app. cbn [fold_left].
  rewrite (fold_insert_lookup_other _ _ _ Hk). cbn [fst snd].
  apply lookup_insert_eq.
Qed.

Lemma dict_of_rows_absent (r : rows) (k : Z) :
  k ∉ r.*1 -> dict_of_rows r !! k = None.
Proof.
  intros Hk. unfold dict_of_rows. rewrite (fold_insert_lookup_other _ _ _ Hk).
  apply lookup_empty.
Qed.

(** X3: when the metric has several rows for the target length, the last of
    them is the observed value; and a length that no row has raises
    [KeyError]. *)
Theorem validate_last_row_wins
    (configuration : ExpectationConfiguration) (r1 r2 : rows)
    (L : Z) (x n : pynum) :
  kwargs_get configuration "value" = PyInt L ->
  as_num (kwargs_get configuration "threshold") = Some n ->
  L ∉ r2.*1 ->
  _validate configuration (metrics_of (r1 ++ (L, x) :: r2))
  = Ok {| success := py_ge x n; observed_value := ObsScalar x |}
  /\ (L ∉ r1.*1 ->
      _validate configuration (metrics_of (r1 ++ r2)) = Err KeyError).
Proof.
  intros Hv Ht HL. split.
  - unfold _validate, metrics_of. rewrite Hv, lookup_singleton_eq.
    rewrite (getitem_int_Some _ _ _ (dict_of_rows_last r1 r2 L x HL)).
    cbn [bind]. rewrite (ge_value_num _ _ _ Ht). reflexivity.
  - intros HL1.
    apply (validate_missing_length_absent configuration _ (r1 ++ r2) L Hv).
    + unfold metrics_of. apply lookup_singleton_eq.
    + apply dict_of_rows_absent. rewrite fmap_app.
      intros H. apply elem_of_app in H as [H | H]; contradiction.
Qed.

Lemma validate_last_row_wins_witness :
  _validate config_32_nine_tenths
    (metrics_of ([(32, NFloat 0.25)] ++ (32, NFloat 1) :: [(16, NFloat 0)]))
  = Ok {| success := py_ge (NFloat 1) (NFloat 0.9);
          observed_value := ObsScalar (NFloat 1) |}.
Proof.
  refine (proj1 (validate_last_row_wins config_32_nine_tenths
            [(32, NFloat 0.25)] [(16, NFloat 0)] 32 (NFloat 1) (NFloat 0.9)
            eq_refl eq_refl _)).
  intros H. apply list_elem_of_singleton in H. discriminate H.
Defined.

Lemma all_ge_short (d : gmap Z pynum) (vs : list pyval) (xs : list pynum) :
  Forall2 (fun v x => getitem d v = Ok x) vs xs ->
  forall (ts pre : list pyval) (ns : list pynum),
    Forall2 (fun t n => as_num t = Some n) ts ns ->
    (length ts < length vs)%nat ->
    all_ge d vs (PyList (pre ++ ts)) (length pre)
    = if pairwise_ge xs ns then Err IndexError else Ok false.
Proof.
  induction 1 as [|v x vs xs Hv _ IH]; intros ts pre ns Hts Hlen.
  - cbn [length] in Hlen. lia.
  - cbn [all_ge]. rewrite Hv. cbn [bind py_index].
    destruct Hts as [|t n ts ns Ht Hts].
    + rewrite app_nil_r, (lookup_ge_None_2 pre (length pre)) by lia.
      reflexivity.
    + rewrite list_lookup_middle by reflexivity. cbn [bind].
      rewrite (ge_value_num _ _ _ Ht). cbn [bind].
      unfold pairwise_ge. cbn [zip zip_with forallb fst snd].
      destruct (py_ge x n); cbn [andb]; [|reflexivity].
      cbn [length] in Hlen.
      specialize (IH ts (pre ++ [t]) ns Hts ltac:(lia)).
      rewrite <- app_assoc, length_app in IH. cbn [length app] in IH.
      replace (length pre + 1)%nat with (S (length pre)) in IH by lia.
      exact IH.
Qed.

(** X4: with fewer thresholds than target lengths the call depends on the
    generator stopping early: it returns [success = false] when one of
    the comparisons that have a threshold fails, and raises [IndexError]
    when they all hold. *)
Theorem validate_short_threshold_list
    (configuration : ExpectationConfiguration) (metrics : gmap string rows)
    (r : rows) (Ls : list Z) (ts : list pyval) (ns xs : list pynum) :
  kwargs_get configuration "value" = PyList (map PyInt Ls) ->
  kwargs_get configuration "threshold" = PyList ts ->
  Forall2 (fun t n => as_num t = Some n) ts ns ->
  (length ts < length Ls)%nat ->
  metrics !! "query.column" = Some r ->
  Forall2 (fun L x => dict_of_rows r !! L = Some x) Ls xs ->
  _validate configuration metrics
  = if pairwise_ge xs ns then Err IndexError
    else Ok {| success := false; observed_value := ObsList xs |}.
Proof.
  intros Hv Ht Hts Hlen Hm Hxs. unfold _validate. rewrite Hv, Ht, Hm.
  pose proof (Forall2_getitem_ints _ _ _ Hxs) as Hg.
  assert (Hlen' : (length ts < length (map PyInt Ls))%nat)
    by (rewrite length_map; exact Hlen).
  pose proof (all_ge_short _ _ _ Hg ts [] ns Hts Hlen') as Hall.
  cbn [app length] in Hall. rewrite Hall.
  destruct (pairwise_ge xs ns); [reflexivity|]. cbn [bind].
  rewrite (observed_list_present _ _ _ Hg). reflexivity.
Qed.

Lemma validate_short_threshold_list_witness :
  _validate
    (kwargs_of [("value", PyList (map PyInt [32; 16]));
                ("threshold", PyList [PyFloat 0.5])])
    (metrics_of [(32, NFloat 0.75); (16, NFloat 0.25)])
  = Err IndexError.
Proof.
  apply (validate_short_threshold_list
           (kwargs_of [("value", PyList (map PyInt [32; 16]));
                       ("threshold", PyList [PyFloat 0.5])])
           (metrics_of [(32, NFloat 0.75); (16, NFloat 0.25)])
           [(32, NFloat 0.75); (16, NFloat 0.25)] [32; 16]
           [PyFloat 0.5] [NFloat 0.5] [NFloat 0.75; NFloat 0.25]).
  - reflexivity.
  - reflexivity.
  - repeat constructor.
  - cbn. lia.
  - reflexivity.
  - repeat constructor.
Defined.

(** * Further properties of [validate_configuration] *)

Lemma numbers_in_unit (l : list pyval) (ns : list pynum) :
  Forall2 (fun t n => as_num t = Some n) l ns ->
  Forall (fun n => num_in_unit n = true) ns ->
  Forall (fun t => exists n, as_num t = Some n /\ num_in_unit n = true) l.
Proof.
  induction 1 as [|t n l ns Hn _ IH]; intros Hall.
  - constructor.
  - inversion Hall; subst. constructor; [exists n; tauto | apply IH; assumption].
Qed.

Lemma validate_configuration_accepted
    (super_validate_configuration : option ExpectationConfiguration -> result unit)
    (c : ExpectationConfiguration) :
  validate_configuration super_validate_configuration (Some c) = Ok tt ->
  is_not_int (kwargs_get c "value") = true
  /\ threshold_ok (kwargs_get c "threshold") = Ok true
  /\ (is_list (kwargs_get c "threshold") = true ->
      same_shape (kwargs_get c "value") (kwargs_get c "threshold") = true).
Proof.
  unfold validate_configuration.
  destruct (super_validate_configuration (Some c)) as [[]|e]; [|discriminate].
  cbn [bind]. rewrite configuration_checks_cases.
  destruct (is_not_int _); [|discriminate].
  destruct (threshold_ok _) as [[|]|e]; try discriminate;
    [|destruct e; discriminate].
  destruct (is_list _); [|intros _; repeat split; discriminate].
  destruct (same_shape _ _); [|discriminate].
  intros _. repeat split.
Qed.

(** X5: an accepted list of thresholds is never empty, holds only numbers in
    (0, 1], and comes with a list of values of the same length. *)
Theorem accepted_threshold_list
    (super_validate_configuration : option ExpectationConfiguration -> result unit)
    (c : ExpectationConfiguration) (ts : list pyval) :
  validate_configuration super_validate_configuration (Some c) = Ok tt ->
  kwargs_get c "threshold" = PyList ts ->
  ts <> []
  /\ Forall (fun t => exists n, as_num t = Some n /\ num_in_unit n = true) ts
  /\ exists vs : list pyval,
       kwargs_get c "value" = PyList vs /\ length vs = length ts.
Proof.
  intros Hok Ht.
  destruct (validate_configuration_accepted _ _ Hok) as (_ & Hth & Hshape).
  rewrite Ht in Hth, Hshape. unfold threshold_ok in Hth. cbn in Hth.
  destruct (threshold_list_ok_true ts Hth) as (ns & s & Hns & Hall & Hs & Hin).
  split; [|split].
  - intros ->. cbn in Hs. injection Hs as <-. discriminate Hin.
  - exact (numbers_in_unit _ _ Hns Hall).
  - specialize (Hshape eq_refl).
    destruct (kwargs_get c "value") as [| | | | |vs|]; try discriminate Hshape.
    exists vs. split; [reflexivity|]. apply Nat.eqb_eq, Hshape.
Qed.

Lemma accepted_threshold_list_witness :
  [PyFloat 0.5; PyFloat 0.25] <> []
  /\ Forall (fun t => exists n, as_num t = Some n /\ num_in_unit n = true)
       [PyFloat 0.5; PyFloat 0.25]
  /\ exists vs : list pyval,
       kwargs_get config_two_lengths "value" = PyList vs
       /\ length vs = length [PyFloat 0.5; PyFloat 0.25].
Proof.
  apply (accepted_threshold_list super_accepts config_two_lengths
           [PyFloat 0.5; PyFloat 0.25]); reflexivity.
Defined.

(** X6: a configuration that gives no [threshold] is rejected: the default of
    [default_kwarg_values] is not looked at. *)
Theorem missing_threshold_is_rejected
    (super_validate_configuration : option ExpectationConfiguration -> result unit)
    (c : ExpectationConfiguration) :
  super_validate_configuration (Some c) = Ok tt ->
  kwargs c !! "threshold" = None ->
  raises_configuration_error
    (validate_configuration super_validate_configuration (Some c)).
Proof.
  intros Hsuper Hnone. unfold validate_configuration, raises_configuration_error.
  rewrite Hsuper. cbn [bind]. rewrite configuration_checks_cases.
  unfold kwargs_get at 2 3. rewrite Hnone. cbn.
  destruct (is_not_int _); eexists; reflexivity.
Qed.

Lemma missing_threshold_is_rejected_witness :
  raises_configuration_error
    (validate_configuration super_accepts (Some (kwargs_of [("value", PyInt 32)]))).
Proof.
  apply (missing_threshold_is_rejected super_accepts
           (kwargs_of [("value", PyInt 32)])); reflexivity.
Defined.

(** X7: once the base class has accepted, the call returns or raises the
    configuration error with one of its three messages (or the overflow
    of a sum): no [AssertionError] leaves the [try] block. *)
Theorem validate_configuration_outcomes
    (super_validate_configuration : option ExpectationConfiguration -> result unit)
    (c : ExpectationConfiguration) :
  super_validate_configuration (Some c) = Ok tt ->
  In (validate_configuration super_validate_configuration (Some c))
     [Ok tt;
      Err (InvalidExpectationConfigurationError value_message);
      Err (InvalidExpectationConfigurationError threshold_message);
      Err (InvalidExpectationConfigurationError pairing_message);
      Err OverflowError].
Proof.
  intros Hsuper. unfold validate_configuration. rewrite Hsuper. cbn [bind].
  rewrite configuration_checks_cases.
  destruct (is_not_int _); [|cbn; tauto].
  destruct (threshold_ok _) as [[|]|e] eqn:Eok.
  - destruct (is_list _); [destruct (same_shape _ _)|]; cbn; tauto.
  - cbn; tauto.
  - apply threshold_ok_error in Eok as ->. cbn; tauto.
Qed.

Lemma validate_configuration_outcomes_witness :
  In (validate_configuration super_accepts (Some config_type_int))
     [Ok tt;
      Err (InvalidExpectationConfigurationError value_message);
      Err (InvalidExpectationConfigurationError threshold_message);
      Err (InvalidExpectationConfigurationError pairing_message);
      Err OverflowError].
Proof.
  apply (validate_configuration_outcomes super_accepts config_type_int).
  reflexivity.
Defined.

(** X8: validation then evaluation: for an accepted configuration whose
    target length is an integer with a row, [_validate] returns, with the
    frequency of the row compared to a threshold in (0, 1]; and for an
    accepted configuration with a list of thresholds and integer target
    lengths that all have a row, [_validate] returns their frequencies. *)
Theorem accepted_configuration_validates
    (super_validate_configuration : option ExpectationConfiguration -> result unit)
    (c : ExpectationConfiguration) (metrics : gmap string rows) (r : rows) :
  validate_configuration super_validate_configuration (Some c) = Ok tt ->
  metrics !! "query.column" = Some r ->
  (forall (L : Z) (x : pynum),
      kwargs_get c "value" = PyInt L ->
      dict_of_rows r !! L = Some x ->
      exists n : pynum,
        as_num (kwargs_get c "threshold") = Some n
        /\ num_in_unit n = true
        /\ _validate c metrics
           = Ok {| success := py_ge x n; observed_value := ObsScalar x |})
  /\ (forall (Ls : list Z) (ts : list pyval) (xs : list pynum),
        kwargs_get c "value" = PyList (map PyInt Ls) ->
        kwargs_get c "threshold" = PyList ts ->
        Forall2 (fun L x => dict_of_rows r !! L = Some x) Ls xs ->
        exists ok : bool,
          _validate c metrics
          = Ok {| success := ok; observed_value := ObsList xs |}).
Proof.
  intros Hok Hm.
  destruct (validate_configuration_accepted _ _ Hok) as (_ & Hth & Hshape).
  split.
  - intros L x Hv HL. rewrite Hv in Hshape.
    unfold threshold_ok in Hth.
    destruct (threshold_scalar_ok (kwargs_get c "threshold")) eqn:Es.
    + apply threshold_scalar_ok_spec in Es as (n & Hn & Hin).
      exists n. split; [exact Hn|]. split; [exact Hin|].
      unfold _validate. rewrite Hv, Hm.
      rewrite (getitem_int_Some _ _ _ HL). cbn [bind].
      rewrite (ge_value_num _ _ _ Hn). reflexivity.
    + destruct (kwargs_get c "threshold") as [| | | | |ts|];
        try discriminate Hth.
      specialize (Hshape eq_refl). discriminate Hshape.
  - intros Ls ts xs Hv Ht Hxs. rewrite Hv, Ht in Hshape. rewrite Ht in Hth.
    unfold threshold_ok in Hth. cbn [threshold_scalar_ok as_num] in Hth.
    destruct (threshold_list_ok_true ts Hth) as (ns & s & Hns & _).
    specialize (Hshape eq_refl). apply Nat.eqb_eq in Hshape.
    pose proof (Forall2_getitem_ints _ _ _ Hxs) as Hg.
    pose proof (all_ge_present _ _ _ Hg ts [] ns Hns Hshape) as Hall.
    cbn [app length] in Hall.
    exists (pairwise_ge xs ns). unfold _validate. rewrite Hv, Ht, Hm, Hall.
    cbn [bind]. rewrite (observed_list_present _ _ _ Hg). reflexivity.
Qed.

Lemma accepted_configuration_validates_witness :
  exists n : pynum,
    as_num (kwargs_get config_32_nine_tenths "threshold") = Some n
    /\ num_in_unit n = true
    /\ _validate config_32_nine_tenths (metrics_of rows_two_of_five)
       = Ok {| success := py_ge (NFloat 0.4) n;
               observed_value := ObsScalar (NFloat 0.4) |}.
Proof.
  refine (proj1 (accepted_configuration_validates super_accepts
            config_32_nine_tenths (metrics_of rows_two_of_five)
            rows_two_of_five eq_refl eq_refl) 32 (NFloat 0.4) eq_refl eq_refl).
Defined.

(** * Further properties of the file data context *)

Lemma value_in_files_origin (h : host) (paths : list string)
    (section opt v : string) (w : world) :
  fst (value_in_files h paths section opt w) = Some v ->
  truthy v = true
  /\ exists p : string,
       p ∈ paths /\ config_get (config_read h p) section opt = Some v.
Proof.
  revert w. induction paths as [|p paths IH]; intros w; cbn [value_in_files].
  - discriminate.
  - destruct (config_get (config_read h p) section opt) as [u|] eqn:Eu.
    + destruct (truthy u) eqn:Et.
      * intros [= <-]. split; [exact Et|]. exists p. split; [left | exact Eu].
      * intros H. destruct (IH _ H) as (Hv & q & Hq & Hget).
        split; [exact Hv|]. exists q. split; [right; exact Hq | exact Hget].
    + intros H. destruct (IH _ H) as (Hv & q & Hq & Hget).
      split; [exact Hv|]. exists q. split; [right; exact Hq | exact Hget].
Qed.

Lemma value_in_files_reads (h : host) (paths : list string)
    (section opt : string) (w : world) :
  exists k : nat,
    snd (value_in_files h paths section opt w) = add_reads w (take k paths).
Proof.
  revert w. induction paths as [|p paths IH]; intros w; cbn [value_in_files].
  - exists 0%nat. rewrite add_reads_nil. reflexivity.
  - fold (add_reads w [p]).
    destruct (config_get (config_read h p) section opt) as [u|];
      [destruct (truthy u)|].
    + exists 1%nat. cbn [snd take]. rewrite take_0. reflexivity.
    + destruct (IH (add_reads w [p])) as [k Hk]. exists (S k).
      rewrite Hk, add_reads_app. reflexivity.
    + destruct (IH (add_reads w [p])) as [k Hk]. exists (S k).
      rewrite Hk, add_reads_app. reflexivity.
Qed.

(** X9: a value [_get_global_config_value] returns is never the empty string,
    and it is the value of the environment variable or the value of the
    option in one of the files of [GLOBAL_CONFIG_PATHS]. *)
Theorem global_config_value_origin
    (GLOBAL_CONFIG_PATHS : list string) (h : host)
    (environment_variable : string)
    (conf_file_section conf_file_option : option string)
    (w : world) (v : string) :
  fst (_get_global_config_value GLOBAL_CONFIG_PATHS h environment_variable
         conf_file_section conf_file_option w) = Ok (Some v) ->
  truthy v = true
  /\ (environ h !! environment_variable = Some v
      \/ exists section opt p : string,
           conf_file_section = Some section
           /\ conf_file_option = Some opt
           /\ p ∈ GLOBAL_CONFIG_PATHS
           /\ config_get (config_read h p) section opt = Some v).
Proof.
  unfold _get_global_config_value.
  destruct (negb _); [discriminate|].
  destruct (if truthy environment_variable then _ else _) as [u|] eqn:Eenv.
  - cbn [fst]. intros [= <-].
    destruct (truthy environment_variable); [|discriminate Eenv].
    unfold environ_get in Eenv.
    destruct (environ h !! environment_variable) as [u'|]; [|discriminate Eenv].
    destruct (truthy u') eqn:Et; [|discriminate Eenv].
    injection Eenv as <-. split; [exact Et | left; reflexivity].
  - destruct conf_file_section as [section|], conf_file_option as [opt|];
      try discriminate.
    destruct (truthy section && truthy opt); [|discriminate].
    destruct (value_in_files _ _ _ _ _) as [r w'] eqn:Ev. cbn [fst].
    intros [= ->].
    assert (H : fst (value_in_files h GLOBAL_CONFIG_PATHS section opt w) = Some v)
      by (rewrite Ev; reflexivity).
    destruct (value_in_files_origin _ _ _ _ _ _ H) as (Hv & p & Hp & Hget).
    split; [exact Hv|]. right. exists section, opt, p. repeat split; assumption.
Qed.

Lemma global_config_value_origin_witness :
  truthy "0123" = true
  /\ (environ (host_with_etc (section_with "data_context_id" "0123"))
        !! "GE_DATA_CONTEXT_ID" = Some "0123"
      \/ exists section opt p : string,
           Some "anonymous_usage_statistics" = Some section
           /\ Some "data_context_id" = Some opt
           /\ p ∈ sample_config_paths
           /\ config_get
                (config_read (host_with_etc (section_with "data_context_id" "0123")) p)
                section opt = Some "0123").
Proof.
  apply (global_config_value_origin sample_config_paths
           (host_with_etc (section_with "data_context_id" "0123"))
           "GE_DATA_CONTEXT_ID" (Some "anonymous_usage_statistics")
           (Some "data_context_id") initial_world "0123").
  reflexivity.
Defined.

(** X10: the files a call of [_get_global_config_value] reads are the first
    few of [GLOBAL_CONFIG_PATHS], in their order; it logs nothing and
    leaves [BOOLEAN_STATES] alone. *)
Theorem global_config_value_reads_prefix
    (GLOBAL_CONFIG_PATHS : list string) (h : host)
    (environment_variable : string)
    (conf_file_section conf_file_option : option string) (w : world) :
  exists k : nat,
    snd (_get_global_config_value GLOBAL_CONFIG_PATHS h environment_variable
           conf_file_section conf_file_option w)
    = add_reads w (take k GLOBAL_CONFIG_PATHS).
Proof.
  unfold _get_global_config_value.
  assert (H0 : exists k : nat, w = add_reads w (take k GLOBAL_CONFIG_PATHS))
    by (exists 0%nat; rewrite take_0, add_reads_nil; reflexivity).
  destruct (negb _); [exact H0|].
  destruct (if truthy environment_variable then _ else _); [exact H0|].
  destruct conf_file_section as [section|], conf_file_option as [opt|];
    try exact H0.
  destruct (truthy section && truthy opt); [|exact H0].
  destruct (value_in_files_reads h GLOBAL_CONFIG_PATHS section opt w) as [k Hk].
  destruct (value_in_files _ _ _ _ _) as [r w']. exists k. exact Hk.
Qed.

(** X11: with neither section nor option only the environment is looked at:
    the call returns the non-empty value of the variable, or [None], and
    reads no file. *)
Theorem global_config_value_environment_only
    (GLOBAL_CONFIG_PATHS : list string) (h : host)
    (environment_variable : string)
    (conf_file_section conf_file_option : option string) (w : world) :
  truthy_opt conf_file_section = false ->
  truthy_opt conf_file_option = false ->
  _get_global_config_value GLOBAL_CONFIG_PATHS h environment_variable
    conf_file_section conf_file_option w
  = (Ok (if truthy environment_variable
         then environ_get h environment_variable else None), w).
Proof.
  intros Hs Ho. unfold _get_global_config_value. rewrite Hs, Ho.
  cbn [andb orb negb].
  destruct (if truthy environment_variable then _ else _); [reflexivity|].
  destruct conf_file_section as [section|], conf_file_option as [opt|];
    try reflexivity.
  cbn [truthy_opt] in Hs. rewrite Hs. reflexivity.
Qed.

Lemma global_config_value_environment_only_witness :
  _get_global_config_value sample_config_paths
    (host_with_env "GE_HOME" "/srv/ge" (section_with "data_context_id" "0123"))
    "GE_HOME" None (Some "") initial_world
  = (Ok (Some "/srv/ge"), initial_world).
Proof.
  apply (global_config_value_environment_only sample_config_paths
           (host_with_env "GE_HOME" "/srv/ge" (section_with "data_context_id" "0123"))
           "GE_HOME" None (Some "") initial_world); reflexivity.
Defined.

(** X12: the two overrides of the data context never fail the assertion
    of [_get_global_config_value]: they pass both a section and an option.
    Each returns the value of its environment variable, when that is set
    and not empty, before any file is read. *)
Theorem overrides_pass_assertion
    (GLOBAL_CONFIG_PATHS : list string) (h : host) (w : world) :
  (forall msg : string,
      fst (_get_data_context_id_override GLOBAL_CONFIG_PATHS h w)
      <> Err (AssertionError msg))
  /\ (forall msg : string,
        fst (_get_usage_stats_url_override GLOBAL_CONFIG_PATHS h w)
        <> Err (AssertionError msg))
  /\ (forall v : string,
        environ_get h "GE_DATA_CONTEXT_ID" = Some v ->
        _get_data_context_id_override GLOBAL_CONFIG_PATHS h w = (Ok (Some v), w))
  /\ (forall v : string,
        environ_get h "GE_USAGE_STATISTICS_URL" = Some v ->
        _get_usage_stats_url_override GLOBAL_CONFIG_PATHS h w = (Ok (Some v), w)).
Proof.
  unfold _get_data_context_id_override, _get_usage_stats_url_override,
    _get_data_context_id_override_from_env_var_and_file,
    _get_config_value_from_env_var_and_file, _get_global_config_value.
  cbn [truthy_opt]. repeat split.
  - intros msg.
    change (truthy "anonymous_usage_statistics") with true.
    change (truthy "data_context_id") with true.
    change (truthy "GE_DATA_CONTEXT_ID") with true. cbn [andb orb negb].
    destruct (environ_get h "GE_DATA_CONTEXT_ID"); [discriminate|].
    destruct (value_in_files _ _ _ _ _). discriminate.
  - intros msg.
    change (truthy "anonymous_usage_statistics") with true.
    change (truthy "usage_statistics_url") with true.
    change (truthy "GE_USAGE_STATISTICS_URL") with true. cbn [andb orb negb].
    destruct (environ_get h "GE_USAGE_STATISTICS_URL"); [discriminate|].
    destruct (value_in_files _ _ _ _ _). discriminate.
  - intros v Hv.
    change (truthy "anonymous_usage_statistics") with true.
    change (truthy "data_context_id") with true.
    change (truthy "GE_DATA_CONTEXT_ID") with true. cbn [andb orb negb].
    rewrite Hv. reflexivity.
  - intros v Hv.
    change (truthy "anonymous_usage_statistics") with true.
    change (truthy "usage_statistics_url") with true.
    change (truthy "GE_USAGE_STATISTICS_URL") with true. cbn [andb orb negb].
    rewrite Hv. reflexivity.
Qed.

Lemma opt_out_in_files_states (FALSEY_STRINGS : list string) (h : host)
    (paths : list string) (w : world) :
  BOOLEAN_STATES (snd (opt_out_in_files FALSEY_STRINGS h paths w))
  = match paths with
    | [] => BOOLEAN_STATES w
    | _ :: _ => extend_boolean_states FALSEY_STRINGS (BOOLEAN_STATES w)
    end.
Proof.
  revert w. induction paths as [|p paths IH]; intros w; [reflexivity|].
  cbn [opt_out_in_files].
  match goal with
  | |- context [opt_out_in_files _ _ paths ?w1] => specialize (IH w1)
  end.
  cbn [BOOLEAN_STATES] in IH.
  rewrite extend_boolean_states_idempotent in IH.
  assert (Hrec : BOOLEAN_STATES
                   (snd (opt_out_in_files FALSEY_STRINGS h paths
                      {| reads := reads w ++ [p];
                         warnings := warnings w;
                         BOOLEAN_STATES :=
                           extend_boolean_states FALSEY_STRINGS (BOOLEAN_STATES w) |}))
                 = extend_boolean_states FALSEY_STRINGS (BOOLEAN_STATES w))
    by (rewrite IH; destruct paths; reflexivity).
  destruct (config_getboolean _ _ _ _) as [[|]|e]; try exact Hrec.
  reflexivity.
Qed.

(** X13: the call writes to the dictionary that all parsers share: unless it
    returns from the environment check or there is no path, every falsey
    string then parses as [False] and [TRUE] and [True] as [True], in
    [BOOLEAN_STATES] itself; the other keys keep their meaning.  A second
    call changes nothing more. *)
Theorem opt_out_extends_boolean_states
    (FALSEY_STRINGS GLOBAL_CONFIG_PATHS : list string) (h : host) (w : world) :
  BOOLEAN_STATES
    (snd (_check_global_usage_statistics_env_var_and_file_opt_out
            FALSEY_STRINGS GLOBAL_CONFIG_PATHS h w))
  = (if env_opts_out FALSEY_STRINGS h then BOOLEAN_STATES w
     else match GLOBAL_CONFIG_PATHS with
          | [] => BOOLEAN_STATES w
          | _ :: _ => extend_boolean_states FALSEY_STRINGS (BOOLEAN_STATES w)
          end)
  /\ (forall k : string,
        extend_boolean_states FALSEY_STRINGS (BOOLEAN_STATES w) !! k
        = if decide (k = "True") then Some true
          else if decide (k = "TRUE") then Some true
          else if decide (k ∈ FALSEY_STRINGS) then Some false
          else BOOLEAN_STATES w !! k)
  /\ extend_boolean_states FALSEY_STRINGS
       (extend_boolean_states FALSEY_STRINGS (BOOLEAN_STATES w))
     = extend_boolean_states FALSEY_STRINGS (BOOLEAN_STATES w).
Proof.
  split; [|split].
  - unfold _check_global_usage_statistics_env_var_and_file_opt_out, env_opts_out.
    destruct (environ_get h "GE_USAGE_STATS") as [v|].
    + destruct (bool_decide (v ∈ FALSEY_STRINGS)); [reflexivity|].
      rewrite opt_out_in_files_states. reflexivity.
    + apply opt_out_in_files_states.
  - apply lookup_extend_boolean_states.
  - apply extend_boolean_states_idempotent.
Qed.

Lemma opt_out_in_files_first (FALSEY_STRINGS : list string) (h : host)
    (pre post : list string) (p : string) (w : world) :
  Forall (fun q => file_opts_out
                     (extend_boolean_states FALSEY_STRINGS (BOOLEAN_STATES w)) h q
                   = false) pre ->
  file_opts_out (extend_boolean_states FALSEY_STRINGS (BOOLEAN_STATES w)) h p
  = true ->
  opt_out_in_files FALSEY_STRINGS h (pre ++ p :: post) w
  = (true,
     {| reads := reads w ++ pre ++ [p];
        warnings := warnings w;
        BOOLEAN_STATES := extend_boolean_states FALSEY_STRINGS (BOOLEAN_STATES w) |}).
Proof.
  intros Hpre Hp. revert w Hpre Hp.
  induction pre as [|q pre IH]; intros w Hpre Hp; cbn [app opt_out_in_files].
  - unfold file_opts_out in Hp.
    destruct (config_getboolean _ _ _ _) as [[|]|e]; try discriminate Hp.
    reflexivity.
  - inversion Hpre as [|? ? Hq Hpre']; subst. unfold file_opts_out in Hq.
    match goal with
    | |- context [opt_out_in_files _ _ _ ?w1] => specialize (IH w1)
    end.
    cbn [BOOLEAN_STATES reads warnings] in IH.
    rewrite extend_boolean_states_idempotent in IH.
    specialize (IH Hpre' Hp). rewrite <- app_assoc in IH. cbn [app] in IH.
    destruct (config_getboolean _ _ _ _) as [[|]|e]; try exact IH.
    discriminate Hq.
Qed.

Lemma opt_out_in_files_all (FALSEY_STRINGS : list string) (h : host)
    (paths : list string) (w : world) :
  reads (snd (opt_out_in_files FALSEY_STRINGS h paths w))
  = reads w ++ paths
  \/ fst (opt_out_in_files FALSEY_STRINGS h paths w) = true.
Proof.
  revert w. induction paths as [|p paths IH]; intros w; cbn [opt_out_in_files].
  - left. cbn. rewrite app_nil_r. reflexivity.
  - match goal with
    | |- context [opt_out_in_files _ _ paths ?w1] => specialize (IH w1)
    end.
    cbn [reads] in IH. rewrite <- app_assoc in IH. cbn [app] in IH.
    destruct (config_getboolean _ _ _ _) as [[|]|e]; try exact IH.
    right. reflexivity.
Qed.

(** X14: the files are read in the order of [GLOBAL_CONFIG_PATHS], and none
    after the first that opts out; a call that answers [False] has read
    them all. *)
Theorem opt_out_stops_at_first_file
    (FALSEY_STRINGS GLOBAL_CONFIG_PATHS : list string) (h : host) (w : world) :
  env_opts_out FALSEY_STRINGS h = false ->
  (forall (i : nat) (p : string),
      GLOBAL_CONFIG_PATHS !! i = Some p ->
      Forall (fun q => file_opts_out
                         (extend_boolean_states FALSEY_STRINGS (BOOLEAN_STATES w))
                         h q = false)
        (take i GLOBAL_CONFIG_PATHS) ->
      file_opts_out (extend_boolean_states FALSEY_STRINGS (BOOLEAN_STATES w)) h p
      = true ->
      fst (_check_global_usage_statistics_env_var_and_file_opt_out
             FALSEY_STRINGS GLOBAL_CONFIG_PATHS h w) = true
      /\ reads (snd (_check_global_usage_statistics_env_var_and_file_opt_out
                       FALSEY_STRINGS GLOBAL_CONFIG_PATHS h w))
         = reads w ++ take (S i) GLOBAL_CONFIG_PATHS)
  /\ (fst (_check_global_usage_statistics_env_var_and_file_opt_out
             FALSEY_STRINGS GLOBAL_CONFIG_PATHS h w) = false ->
      reads (snd (_check_global_usage_statistics_env_var_and_file_opt_out
                    FALSEY_STRINGS GLOBAL_CONFIG_PATHS h w))
      = reads w ++ GLOBAL_CONFIG_PATHS).
Proof.
  intros Henv.
  unfold _check_global_usage_statistics_env_var_and_file_opt_out.
  unfold env_opts_out in Henv.
  assert (Hloop :
    forall w1 : world,
      BOOLEAN_STATES w1 = BOOLEAN_STATES w ->
      reads w1 = reads w ->
      (forall (i : nat) (p : string),
          GLOBAL_CONFIG_PATHS !! i = Some p ->
          Forall (fun q => file_opts_out
                             (extend_boolean_states FALSEY_STRINGS (BOOLEAN_STATES w))
                             h q = false)
            (take i GLOBAL_CONFIG_PATHS) ->
          file_opts_out (extend_boolean_states FALSEY_STRINGS (BOOLEAN_STATES w)) h p
          = true ->
          fst (opt_out_in_files FALSEY_STRINGS h GLOBAL_CONFIG_PATHS w1) = true
          /\ reads (snd (opt_out_in_files FALSEY_STRINGS h GLOBAL_CONFIG_PATHS w1))
             = reads w ++ take (S i) GLOBAL_CONFIG_PATHS)
      /\ (fst (opt_out_in_files FALSEY_STRINGS h GLOBAL_CONFIG_PATHS w1) = false ->
          reads (snd (opt_out_in_files FALSEY_STRINGS h GLOBAL_CONFIG_PATHS w1))
          = reads w ++ GLOBAL_CONFIG_PATHS)).
  { intros w1 Hst Hrd. split.
    - intros i p Hp Hpre Hout. rewrite <- Hst in Hpre, Hout.
      assert (E : opt_out_in_files FALSEY_STRINGS h GLOBAL_CONFIG_PATHS w1
                  = (true,
                     {| reads := reads w1 ++ take i GLOBAL_CONFIG_PATHS ++ [p];
                        warnings := warnings w1;
                        BOOLEAN_STATES :=
                          extend_boolean_states FALSEY_STRINGS (BOOLEAN_STATES w1) |})).
      { rewrite <- (take_drop_middle _ _ _ Hp) at 1.
        apply opt_out_in_files_first; assumption. }
      rewrite E. cbn [fst snd reads].
      rewrite (take_S_r _ _ _ Hp), Hrd. split; reflexivity.
    - intros Hf.
      destruct (opt_out_in_files_all FALSEY_STRINGS h GLOBAL_CONFIG_PATHS w1)
        as [H | H]; [rewrite H, Hrd; reflexivity | congruence]. }
  destruct (environ_get h "GE_USAGE_STATS") as [v|].
  - rewrite Henv. apply Hloop; reflexivity.
  - apply Hloop; reflexivity.
Qed.

Lemma opt_out_stops_at_first_file_witness :
  fst (_check_global_usage_statistics_env_var_and_file_opt_out
         sample_falsey_strings
         ("/etc/great_expectations.conf" :: sample_config_paths)
         (host_with_etc (section_with "enabled" "F")) initial_world) = true
  /\ reads (snd (_check_global_usage_statistics_env_var_and_file_opt_out
                   sample_falsey_strings
                   ("/etc/great_expectations.conf" :: sample_config_paths)
                   (host_with_etc (section_with "enabled" "F")) initial_world))
     = ["/etc/great_expectations.conf"].
Proof.
  refine (proj1 (opt_out_stops_at_first_file sample_falsey_strings
            ("/etc/great_expectations.conf" :: sample_config_paths)
            (host_with_etc (section_with "enabled" "F")) initial_world eq_refl)
          0%nat "/etc/great_expectations.conf" eq_refl _ _).
  - constructor.
  - vm_compute. reflexivity.
Defined.

Lemma lower_ascii_idempotent (c : ascii) :
  lower_ascii (lower_ascii c) = lower_ascii c.
Proof. destruct c as [[] [] [] [] [] [] [] []]; reflexivity. Qed.

Lemma lower_idempotent (s : string) : lower (lower s) = lower s.
Proof.
  induction s as [|c s IH]; cbn [lower]; [reflexivity|].
  rewrite lower_ascii_idempotent, IH. reflexivity.
Qed.

(** X15: the parser lowers a value before it looks it up, so only the
    lower-case keys of [BOOLEAN_STATES] are ever read; in particular the
    entries [TRUE] and [True] that the loop adds change no answer: a file
    opts out with them exactly when it does with the falsey strings
    alone. *)
Theorem getboolean_reads_lower_case_keys
    (states states' : gmap string bool) (c : ini) (section opt : string) :
  (forall k : string, lower k = k -> states !! k = states' !! k) ->
  config_getboolean states c section opt
  = config_getboolean states' c section opt
  /\ (forall (FALSEY_STRINGS : list string) (h : host) (p : string),
        file_opts_out (extend_boolean_states FALSEY_STRINGS states) h p
        = file_opts_out
            (fold_left (fun st f => <[f := false]> st) FALSEY_STRINGS states) h p).
Proof.
  assert (Hgen : forall (st st' : gmap string bool) (c' : ini),
            (forall k : string, lower k = k -> st !! k = st' !! k) ->
            config_getboolean st c' section opt
            = config_getboolean st' c' section opt).
  { intros st st' c' Hsame. unfold config_getboolean.
    destruct (config_get c' section opt) as [v|]; [|reflexivity].
    rewrite (Hsame (lower v) (lower_idempotent v)). reflexivity. }
  intros Hsame. split; [exact (Hgen _ _ c Hsame)|].
  intros FALSEY_STRINGS h p. unfold file_opts_out, config_getboolean.
  destruct (config_get _ _ _) as [v|]; [|reflexivity].
  unfold extend_boolean_states.
  rewrite !lookup_insert_ne; [reflexivity | |];
    intros E; pose proof (lower_idempotent v) as Hl; rewrite <- E in Hl;
    discriminate Hl.
Qed.

Lemma getboolean_reads_lower_case_keys_witness :
  config_getboolean (<["True" := true]> (<["TRUE" := true]> default_boolean_states))
    (section_with "enabled" "TRUE") "anonymous_usage_statistics" "enabled"
  = config_getboolean default_boolean_states
      (section_with "enabled" "TRUE") "anonymous_usage_statistics" "enabled".
Proof.
  apply (getboolean_reads_lower_case_keys
           (<["True" := true]> (<["TRUE" := true]> default_boolean_states))
           default_boolean_states (section_with "enabled" "TRUE")
           "anonymous_usage_statistics" "enabled").
  intros k Hk.
  rewrite !lookup_insert_ne; [reflexivity | |]; intros <-; discriminate Hk.
Defined.
